(** * Clothy: the virtual try-on workflow

    A shallow embedding of the two source files that carry behaviour:

    - [services/geminiService.ts]: [generateVirtualTryOnImage], the client of
      the remote image-generation service;
    - the [App] component: the five pieces of React state and the two event
      handlers [handleFileChange] and [handleTryOn].

    JavaScript effects are made explicit.  A computation takes the component
    state and yields an outcome (a returned value or a thrown one), the new
    state and the list of observable events it caused, in program order.
    An [await] is modelled as running the awaited computation to completion:
    one handler invocation is followed from entry to exit, and interleaving
    with other handlers is out of the model. *)

From Stdlib Require Import String List Bool.
Import ListNotations.

Local Open Scope string_scope.
Local Open Scope list_scope.

(** ** JavaScript values, exceptions and the effect monad *)

Module Js.

(** What a [throw] (or a rejected promise) can carry.  [handleTryOn] reads
    [err.message] from a value typed [any], so the three shapes that behave
    differently there are kept apart. *)
Inductive Thrown : Type :=
| ErrorObject (message : string)  (* new Error(m), TypeError, ... *)
| OtherValue (shown : string)     (* a non-nullish value without .message *)
| Nullish.                        (* null or undefined *)

Inductive Outcome (A : Type) : Type :=
| Return (a : A)
| Throw (e : Thrown).
Arguments Return {A} a.
Arguments Throw {A} e.

(** A [string | undefined] value; [None] is [undefined]. *)
Definition JsStr : Type := option string.

(** Truthiness of a [string | undefined]: [undefined] and the empty string
    are falsy. *)
Definition truthy (v : JsStr) : bool :=
  match v with
  | None => false
  | Some EmptyString => false
  | Some (String _ _) => true
  end.

(** [${v}] inside a template literal. *)
Definition template (v : JsStr) : string :=
  match v with
  | None => "undefined"
  | Some s => s
  end.

(** [s.startsWith(p)]. *)
Definition startsWith (s p : string) : bool := String.prefix p s.

(** The TypeError raised by reading property [prop] of [undefined]; the
    text is the engine's and is only ever logged. *)
Definition readOfUndefined (prop : string) : Thrown :=
  ErrorObject ("Cannot read properties of undefined (reading '" ++ prop ++ "')")%string.

(** [err.message] for a caught value of one of the three shapes.  The
    text for [Nullish] is the engine's for [null] (for [undefined] it names
    [undefined]); no statement below depends on it.  Values whose [message]
    cannot be read or converted to a string are not among the shapes. *)
Definition messageOf (err : Thrown) : Outcome JsStr :=
  match err with
  | ErrorObject m => Return (Some m)
  | OtherValue _ => Return None
  | Nullish => Throw (ErrorObject "Cannot read properties of null (reading 'message')")
  end.

(** [Array.prototype.find] with a predicate that may throw. *)
Fixpoint find {A : Type} (pred : A -> Outcome bool) (l : list A) : Outcome (option A) :=
  match l with
  | [] => Return None
  | x :: rest =>
      match pred x with
      | Throw e => Throw e
      | Return true => Return (Some x)
      | Return false => find pred rest
      end
  end.

(** Result of running a computation: outcome, final state, events. *)
Record Res (E S A : Type) : Type := mkRes {
  outcome : Outcome A;
  final : S;
  events : list E
}.
Arguments mkRes {E S A} outcome final events.
Arguments outcome {E S A} r.
Arguments final {E S A} r.
Arguments events {E S A} r.

Definition Eff (E S A : Type) : Type := S -> Res E S A.

Section Combinators.
Context {E S : Type}.

Definition ret {A} (a : A) : Eff E S A :=
  fun s => mkRes (Return a) s [].

Definition throw {A} (e : Thrown) : Eff E S A :=
  fun s => mkRes (Throw e) s [].

Definition bind {A B} (m : Eff E S A) (k : A -> Eff E S B) : Eff E S B :=
  fun s =>
    match m s with
    | mkRes (Return a) s1 es1 =>
        match k a s1 with
        | mkRes o s2 es2 => mkRes o s2 (es1 ++ es2)
        end
    | mkRes (Throw e) s1 es1 => mkRes (Throw e) s1 es1
    end.

Definition emit (e : E) : Eff E S unit :=
  fun s => mkRes (Return tt) s [e].

Definition get : Eff E S S :=
  fun s => mkRes (Return s) s [].

Definition modify (f : S -> S) : Eff E S unit :=
  fun s => mkRes (Return tt) (f s) [].

Definition liftO {A} (o : Outcome A) : Eff E S A :=
  fun s => mkRes o s [].

(** [try { m } catch (e) { h e }] *)
Definition try_catch {A} (m : Eff E S A) (h : Thrown -> Eff E S A) : Eff E S A :=
  fun s =>
    match m s with
    | mkRes (Return a) s1 es1 => mkRes (Return a) s1 es1
    | mkRes (Throw e) s1 es1 =>
        match h e s1 with
        | mkRes o s2 es2 => mkRes o s2 (es1 ++ es2)
        end
    end.

(** [try { m } finally { f }]: [f] always runs; when it completes
    normally the completion of [m] stands, when it throws, its exception
    does. *)
Definition try_finally {A} (m : Eff E S A) (f : Eff E S unit) : Eff E S A :=
  fun s =>
    match m s with
    | mkRes o s1 es1 =>
        match f s1 with
        | mkRes (Return _) s2 es2 => mkRes o s2 (es1 ++ es2)
        | mkRes (Throw e) s2 es2 => mkRes (Throw e) s2 (es1 ++ es2)
        end
    end.
End Combinators.

(** Run a computation that has no access to the caller's state (code of
    another module), keeping its events under the injection [inj]. *)
Definition call {E E' S A} (inj : E' -> E) (m : Eff E' unit A) : Eff E S A :=
  fun s =>
    match m tt with
    | mkRes o _ es => mkRes o s (map inj es)
    end.

Declare Scope eff_scope.
Delimit Scope eff_scope with eff.
Notation "x <- m ;; k" := (bind m (fun x => k))
  (at level 61, m at next level, right associativity) : eff_scope.
Notation "m ;; k" := (bind m (fun _ => k))
  (at level 61, right associativity) : eff_scope.

End Js.

(** ** The types of the [@google/genai] SDK that the service touches

    The SDK declares every field of a response optional; the service reads
    them through optional chaining, except [mimeType] and [data], which it
    reads directly. *)

Module GenAI.
Import Js.

Record Blob : Type := {
  data : JsStr;
  mimeType : JsStr
}.

Record Part : Type := {
  inlineData : option Blob;
  text : JsStr
}.

Record Content : Type := { parts : option (list Part) }.

Record Candidate : Type := { content : option Content }.

Record GenerateContentResponse : Type := { candidates : option (list Candidate) }.

Inductive Modality : Type := MODALITY_UNSPECIFIED | TEXT | IMAGE | AUDIO.

Record GenerateContentConfig : Type := { responseModalities : list Modality }.

Record GenerateContentParameters : Type := {
  model : string;
  contents : Content;
  config : GenerateContentConfig
}.

(** [new GoogleGenAI({ apiKey })] *)
Record GoogleGenAI : Type := { apiKey : JsStr }.
End GenAI.

(** ** services/geminiService.ts *)

Module GeminiService.
Import Js GenAI.
Local Open Scope eff_scope.

Record ImageData : Type := {
  base64 : string;
  mimeType : string
}.

Record ProcessEnv : Type := { API_KEY : JsStr }.

Inductive Event : Type :=
| NewGoogleGenAI (ai : GoogleGenAI)
| GenerateContent (ai : GoogleGenAI) (request : GenerateContentParameters)
| ConsoleError (label : string) (err : Thrown).

Definition prompt : string :=
  "Using the two images provided, superimpose the clothing item from the second image onto the person in the first image. The fit should be realistic and natural. The output must be a high-quality, photorealistic image showing only the final result of the person wearing the clothing.".

Definition missingKeyMessage : string := "API_KEY environment variable not set.".

Definition noImageMessage : string :=
  "The API did not return a valid image. The response might have been blocked or did not meet safety guidelines.".

Definition failedMessage : string :=
  "Failed to generate image. The model may be unavailable or the request was invalid.".

(** [part.inlineData && part.inlineData.mimeType.startsWith('image/')] *)
Definition isImagePart (part : Part) : Outcome bool :=
  match inlineData part with
  | None => Return false
  | Some blob =>
      match GenAI.mimeType blob with
      | None => Throw (readOfUndefined "startsWith")
      | Some m => Return (startsWith m "image/")
      end
  end.

(** [response.candidates?.[0]?.content?.parts] *)
Definition firstParts (response : GenerateContentResponse) : option (list Part) :=
  match candidates response with
  | None => None
  | Some cs =>
      match nth_error cs 0 with
      | None => None
      | Some c =>
          match content c with
          | None => None
          | Some ct => parts ct
          end
      end
  end.

(** [response.candidates?.[0]?.content?.parts?.find(...)] *)
Definition findImagePart (response : GenerateContentResponse) : Outcome (option Part) :=
  match firstParts response with
  | None => Return None
  | Some ps => find isImagePart ps
  end.

Definition imagePartOf (image : ImageData) : Part :=
  {| inlineData := Some {| data := Some (base64 image);
                           GenAI.mimeType := Some (mimeType image) |};
     text := None |}.

Definition textPart : Part := {| inlineData := None; text := Some prompt |}.

Definition requestFor (personImage clothingImage : ImageData) : GenerateContentParameters :=
  {| model := "gemini-2.5-flash-image";
     contents := {| parts := Some [imagePartOf personImage;
                                   imagePartOf clothingImage;
                                   textPart] |};
     config := {| responseModalities := [IMAGE] |} |}.

Section Service.
(** The process environment and the remote service: what the awaited
    [ai.models.generateContent(request)] settles with. *)
Variable env : ProcessEnv.
Variable generateContent :
  GoogleGenAI -> GenerateContentParameters -> Outcome GenerateContentResponse.

Definition generateVirtualTryOnImage (personImage clothingImage : ImageData)
  : Eff Event unit JsStr :=
  if negb (truthy (API_KEY env)) then
    throw (ErrorObject missingKeyMessage)
  else
    let ai := {| apiKey := API_KEY env |} in
    emit (NewGoogleGenAI ai) ;;
    let request := requestFor personImage clothingImage in
    try_catch
      (emit (GenerateContent ai request) ;;
       response <- liftO (generateContent ai request) ;;
       imagePart <- liftO (findImagePart response) ;;
       match imagePart with
       | Some part =>
           match inlineData part with
           | Some blob => ret (data blob)
           | None => throw (ErrorObject noImageMessage)
           end
       | None => throw (ErrorObject noImageMessage)
       end)
      (fun error =>
         emit (ConsoleError "Error calling Gemini API:" error) ;;
         throw (ErrorObject failedMessage)).
End Service.
End GeminiService.

(** ** The [App] component: state and handlers *)

Module App.
Import Js.
Local Open Scope eff_scope.

(** The browser's [File]; the handlers only pass it on. *)
Record File : Type := { name : string }.

Record ImageState : Type := {
  file : File;
  base64 : string;
  mimeType : string
}.

(** An [ImageState] handed to the service, which is typed to read only the
    two fields of [ImageData]. *)
Definition asImageData (image : ImageState) : GeminiService.ImageData :=
  {| GeminiService.base64 := base64 image;
     GeminiService.mimeType := mimeType image |}.

(** The [type] argument of [handleFileChange]: ['person' | 'clothing']. *)
Inductive UploadType : Type := person | clothing.

(** The five [useState] cells of [App]. *)
Record AppState : Type := {
  personImage : option ImageState;
  clothingImage : option ImageState;
  generatedImage : option string;
  isLoading : bool;
  error : option string
}.

(** The values the [useState] calls start from. *)
Definition initialState : AppState :=
  {| personImage := None; clothingImage := None; generatedImage := None;
     isLoading := false; error := None |}.

Inductive Event : Type :=
| SetPersonImage (v : option ImageState)
| SetClothingImage (v : option ImageState)
| SetGeneratedImage (v : option string)
| SetIsLoading (v : bool)
| SetError (v : option string)
| FileToBase64 (f : File)
| Generate (personImage clothingImage : GeminiService.ImageData)
| Service (e : GeminiService.Event)
| ConsoleError (err : Thrown).

(** The effect of an event on the component state: a setter call replaces
    its cell, anything else leaves the state alone. *)
Definition apply (e : Event) (s : AppState) : AppState :=
  match e with
  | SetPersonImage v =>
      {| personImage := v; clothingImage := clothingImage s;
         generatedImage := generatedImage s; isLoading := isLoading s; error := error s |}
  | SetClothingImage v =>
      {| personImage := personImage s; clothingImage := v;
         generatedImage := generatedImage s; isLoading := isLoading s; error := error s |}
  | SetGeneratedImage v =>
      {| personImage := personImage s; clothingImage := clothingImage s;
         generatedImage := v; isLoading := isLoading s; error := error s |}
  | SetIsLoading v =>
      {| personImage := personImage s; clothingImage := clothingImage s;
         generatedImage := generatedImage s; isLoading := v; error := error s |}
  | SetError v =>
      {| personImage := personImage s; clothingImage := clothingImage s;
         generatedImage := generatedImage s; isLoading := isLoading s; error := v |}
  | FileToBase64 _ | Generate _ _ | Service _ | ConsoleError _ => s
  end.

(** The state after a sequence of events, oldest first. *)
Definition replay (es : list Event) (s : AppState) : AppState :=
  fold_left (fun acc e => apply e acc) es s.

(** A setter call: recorded, and applied to the state. *)
Definition set (e : Event) : Eff Event AppState unit :=
  emit e ;; modify (apply e).

Definition setPersonImage (v : option ImageState) := set (SetPersonImage v).
Definition setClothingImage (v : option ImageState) := set (SetClothingImage v).
Definition setGeneratedImage (v : option string) := set (SetGeneratedImage v).
Definition setIsLoading (v : bool) := set (SetIsLoading v).
Definition setError (v : option string) := set (SetError v).

Definition processFailedMessage : string :=
  "Failed to process file. Please try another image.".

Definition bothImagesMessage : string :=
  "Please upload both images before trying on.".

Definition dataUrlPrefix : string := "data:image/png;base64,".

(** [`An error occurred: ${m}. Please try again.`] *)
Definition errorOccurred (m : JsStr) : string :=
  ("An error occurred: " ++ template m ++ ". Please try again.")%string.

Section Handlers.
(** [fileToBase64] of [utils/fileUtils]: what the awaited promise settles
    with for a given file. *)
Variable fileToBase64 : File -> Outcome GeminiService.ImageData.
(** The imported [generateVirtualTryOnImage]. *)
Variable generateVirtualTryOnImage :
  GeminiService.ImageData -> GeminiService.ImageData ->
  Eff GeminiService.Event unit JsStr.

Definition handleFileChange (file : option File) (type : UploadType)
  : Eff Event AppState unit :=
  match file with
  | None =>
      match type with
      | person => setPersonImage None
      | clothing => setClothingImage None
      end
  | Some f =>
      try_catch
        (emit (FileToBase64 f) ;;
         encoded <- liftO (fileToBase64 f) ;;
         let newState := {| file := f;
                            base64 := GeminiService.base64 encoded;
                            mimeType := GeminiService.mimeType encoded |} in
         match type with
         | person => setPersonImage (Some newState)
         | clothing => setClothingImage (Some newState)
         end)
        (fun err =>
           setError (Some processFailedMessage) ;;
           emit (ConsoleError err))
  end.

Definition handleTryOn : Eff Event AppState unit :=
  s <- get ;;
  match personImage s, clothingImage s with
  | Some personImage, Some clothingImage =>
      setIsLoading true ;;
      setError None ;;
      setGeneratedImage None ;;
      try_finally
        (try_catch
           (emit (Generate (asImageData personImage) (asImageData clothingImage)) ;;
            resultBase64 <-
              call Service (generateVirtualTryOnImage (asImageData personImage)
                                                      (asImageData clothingImage)) ;;
            setGeneratedImage (Some (dataUrlPrefix ++ template resultBase64)%string))
           (fun err =>
              message <- liftO (messageOf err) ;;
              setError (Some (errorOccurred message)) ;;
              emit (ConsoleError err)))
        (setIsLoading false)
  | _, _ => setError (Some bothImagesMessage)
  end.
End Handlers.
End App.

(** ** The vocabulary of the design

    The component has no state enumeration; the design names its workflow
    states by what the five cells show, and the parts of a response by what
    the scan does with them. *)

Module Design.
Import Js App.

(** Idle: no result, not loading. *)
Definition Idle (s : AppState) : Prop :=
  generatedImage s = None /\ isLoading s = false.

(** Generating: the call is in flight. *)
Definition Generating (s : AppState) : Prop :=
  isLoading s = true.

(** Succeeded: holds the result image. *)
Definition Succeeded (s : AppState) (result : string) : Prop :=
  generatedImage s = Some result /\ isLoading s = false /\ error s = None.

(** Failed: holds the error message, and no result. *)
Definition Failed (s : AppState) (message : string) : Prop :=
  error s = Some message /\ isLoading s = false /\ generatedImage s = None.

(** At least one of the two upload slots is absent. *)
Definition slotAbsent (s : AppState) : Prop :=
  personImage s = None \/ clothingImage s = None.

(** Both upload slots are populated. *)
Definition bothUploaded (s : AppState) : Prop :=
  exists p c, personImage s = Some p /\ clothingImage s = Some c.

(** [sub] occurs inside [s]. *)
Definition contains (s sub : string) : Prop :=
  exists before after, s = (before ++ sub ++ after)%string.

(** The event is a call of the generation client. *)
Definition isGenerate (e : Event) : bool :=
  match e with
  | Generate _ _ => true
  | _ => false
  end.

(** The events of [handleTryOn] from entry up to and including the client
    call, for uploads [p] and [c]. *)
Definition entry (p c : ImageState) : list Event :=
  [SetIsLoading true; SetError None; SetGeneratedImage None;
   Generate (asImageData p) (asImageData c)].

(** A response part whose inline payload is present and whose media type
    indicates an image. *)
Definition ImagePart (part : GenAI.Part) (blob : GenAI.Blob) : Prop :=
  GenAI.inlineData part = Some blob /\
  exists m, GenAI.mimeType blob = Some m /\ startsWith m "image/" = true.

(** A response part that lacks a payload, or whose media type is not an
    image type. *)
Definition NotImagePart (part : GenAI.Part) : Prop :=
  GenAI.inlineData part = None \/
  exists blob m, GenAI.inlineData part = Some blob /\
                 GenAI.mimeType blob = Some m /\ startsWith m "image/" = false.

(** The parts the scan sees: those of the first candidate. *)
Definition respondsWith (parts : list GenAI.Part) : GenAI.GenerateContentResponse :=
  {| GenAI.candidates :=
       Some [ {| GenAI.content := Some {| GenAI.parts := Some parts |} |} ] |}.
End Design.

(** ** Concrete inputs used by the examples below *)

Module Sample.
Import Js GenAI App.

Definition env : GeminiService.ProcessEnv :=
  {| GeminiService.API_KEY := Some "secret" |}.

Definition noKey : GeminiService.ProcessEnv :=
  {| GeminiService.API_KEY := None |}.

Definition textOnly : Part :=
  {| inlineData := None; text := Some "I cannot help with that." |}.


Definition jpeg : Part :=
  {| inlineData := Some {| data := Some "Zm9v"; GenAI.mimeType := Some "image/jpeg" |};
     text := None |}.

Definition png : Part :=
  {| inlineData := Some {| data := Some "YmFy"; GenAI.mimeType := Some "image/png" |};
     text := None |}.

(** A service that answers every request with the same parts. *)
Definition answering (ps : list Part)
  : GoogleGenAI -> GenerateContentParameters -> Outcome GenerateContentResponse :=
  fun _ _ => Return (Design.respondsWith ps).

(** A service whose call rejects, as on a network failure. *)
Definition unreachable
  : GoogleGenAI -> GenerateContentParameters -> Outcome GenerateContentResponse :=
  fun _ _ => Throw (ErrorObject "fetch failed").

Definition personUpload : ImageState :=
  {| file := {| name := "person.jpg" |}; base64 := "cGVyc29u"; mimeType := "image/jpeg" |}.

Definition shirtUpload : ImageState :=
  {| file := {| name := "shirt.png" |}; base64 := "c2hpcnQ="; mimeType := "image/png" |}.

(** The two uploads as the service receives them. *)
Definition person : GeminiService.ImageData := asImageData personUpload.
Definition shirt : GeminiService.ImageData := asImageData shirtUpload.

(** Both slots filled, nothing generated yet. *)
Definition ready : AppState :=
  {| personImage := Some personUpload; clothingImage := Some shirtUpload;
     generatedImage := None; isLoading := false; error := None |}.

(** Only the person slot filled. *)
Definition personOnly : AppState :=
  {| personImage := Some personUpload; clothingImage := None;
     generatedImage := None; isLoading := false; error := None |}.

(** A result is on display and the person slot has since been cleared. *)
Definition resultShownPersonCleared : AppState :=
  {| personImage := None; clothingImage := Some shirtUpload;
     generatedImage := Some "data:image/png;base64,Zm9v";
     isLoading := false; error := None |}.

(** An encoder that reads every file. *)
Definition encodes : File -> Outcome GeminiService.ImageData :=
  fun f => Return {| GeminiService.base64 := "ZmlsZQ=="; GeminiService.mimeType := "image/png" |}.

(** An encoder that cannot read any file. *)
Definition unreadable : File -> Outcome GeminiService.ImageData :=
  fun _ => Throw (ErrorObject "read failed").

(** A client that resolves with a fixed payload. *)
Definition resolving (payload : string)
  : GeminiService.ImageData -> GeminiService.ImageData ->
    Eff GeminiService.Event unit JsStr :=
  fun _ _ => ret (Some payload).

(** A client that fails with a fixed message. *)
Definition failing (message : string)
  : GeminiService.ImageData -> GeminiService.ImageData ->
    Eff GeminiService.Event unit JsStr :=
  fun _ _ => throw (ErrorObject message).
End Sample.

(** ** What [App] renders from its state

    The JSX of [App] is a fixed tree with a handful of conditional regions;
    each region is kept as the condition (and the text or source) the JSX
    gives it. *)

Module View.
Import Js App.

(** Truthiness of an object-or-null cell. *)
Definition present {A : Type} (v : option A) : bool :=
  match v with
  | Some _ => true
  | None => false
  end.

(** [!personImage || !clothingImage || isLoading] *)
Definition isButtonDisabled (s : AppState) : bool :=
  negb (present (personImage s)) || negb (present (clothingImage s)) || isLoading s.

Record Rendered : Type := {
  buttonDisabled : bool;       (* disabled={isButtonDisabled} *)
  buttonLabel : string;        (* isLoading ? "Generating..." : "Try It On" *)
  errorText : option string;   (* {error && <p>{error}</p>} *)
  overlay : bool;              (* {isLoading && ...} *)
  placeholder : bool;          (* {!generatedImage && !isLoading && ...} *)
  resultSrc : option string;   (* {generatedImage && <img src={generatedImage}>} *)
  downloadButton : bool        (* inside the same generatedImage region *)
}.

Definition render (s : AppState) : Rendered :=
  {| buttonDisabled := isButtonDisabled s;
     buttonLabel := if isLoading s then "Generating..." else "Try It On";
     errorText := if truthy (error s) then error s else None;
     overlay := isLoading s;
     placeholder := negb (truthy (generatedImage s)) && negb (isLoading s);
     resultSrc := if truthy (generatedImage s) then generatedImage s else None;
     downloadButton := truthy (generatedImage s) |}.
End View.

(** ** [handleDownload] *)

Module Download.
Import Js App.
Local Open Scope eff_scope.

(** The temporary [<a>] element, as it is when it is attached and clicked. *)
Record Anchor : Type := {
  href : string;
  download : string
}.

Inductive Event : Type :=
| CreateElement (tag : string)
| AppendChild (link : Anchor)
| Click (link : Anchor)
| RemoveChild (link : Anchor).

Definition downloadName : string := "clothy-try-on.png".

Definition handleDownload : Eff Event AppState unit :=
  s <- get ;;
  if negb (truthy (generatedImage s)) then ret tt
  else
    emit (CreateElement "a") ;;
    let link := {| href := template (generatedImage s); download := downloadName |} in
    emit (AppendChild link) ;;
    emit (Click link) ;;
    emit (RemoveChild link).
End Download.

(** ** The [UploadBox] component *)

Module UploadBox.
Import Js App.
Local Open Scope eff_scope.

(** The two [useState] cells of one box. *)
Record State : Type := {
  preview : option string;
  fileName : string
}.

Definition initialState : State := {| preview := None; fileName := "" |}.

Inductive Event : Type :=
| CreateObjectURL (f : File)
| SetPreview (v : option string)
| SetFileName (v : string)
| OnFileChange (file : option File)
| Parent (e : App.Event).

Definition setPreview (v : option string) : Eff Event (State * AppState) unit :=
  emit (SetPreview v) ;;
  modify (fun st => ({| preview := v; fileName := fileName (fst st) |}, snd st)).

Definition setFileName (v : string) : Eff Event (State * AppState) unit :=
  emit (SetFileName v) ;;
  modify (fun st => ({| preview := preview (fst st); fileName := v |}, snd st)).

(** A handler of the parent component, run on the parent's state. *)
Definition parent {A} (m : Eff App.Event AppState A) : Eff Event (State * AppState) A :=
  fun st =>
    match m (snd st) with
    | mkRes o a es => mkRes o (fst st, a) (map Parent es)
    end.

(** [event.target.files?.[0] || null] *)
Definition firstFile (files : option (list File)) : option File :=
  match files with
  | None => None
  | Some l => nth_error l 0
  end.

Section Box.
(** [URL.createObjectURL] of the browser. *)
Variable createObjectURL : File -> string.
(** The [onFileChange] prop. *)
Variable onFileChange : option File -> Eff App.Event AppState unit.

Definition handleFileChange (files : option (list File))
  : Eff Event (State * AppState) unit :=
  let file := firstFile files in
  match file with
  | Some f =>
      emit (CreateObjectURL f) ;;
      setPreview (Some (createObjectURL f)) ;;
      setFileName (name f)
  | None =>
      setPreview None ;;
      setFileName ""
  end ;;
  emit (OnFileChange file) ;;
  parent (onFileChange file).
End Box.

(** The box [App] renders for a role: its [onFileChange] is
    [(file) => handleFileChange(file, type)]. *)
Definition boxFor (createObjectURL : File -> string)
  (fileToBase64 : File -> Outcome GeminiService.ImageData) (type : UploadType)
  : option (list File) -> Eff Event (State * AppState) unit :=
  handleFileChange createObjectURL
    (fun file => App.handleFileChange fileToBase64 file type).
End UploadBox.

(** ** More vocabulary and sample data for the properties further down *)

Module Scenario.
Import Js App.

(** The setter event of the slot for a role. *)
Definition slotEvent (type : UploadType) (v : option ImageState) : App.Event :=
  match type with
  | person => SetPersonImage v
  | clothing => SetClothingImage v
  end.

(** The slot of a role. *)
Definition slot (type : UploadType) (s : AppState) : option ImageState :=
  match type with
  | person => personImage s
  | clothing => clothingImage s
  end.

Definition otherType (type : UploadType) : UploadType :=
  match type with
  | person => clothing
  | clothing => person
  end.

(** What a successful encoding of [f] stores. *)
Definition stored (f : File) (encoded : GeminiService.ImageData) : ImageState :=
  {| file := f;
     base64 := GeminiService.base64 encoded;
     mimeType := GeminiService.mimeType encoded |}.

(** The event is a request sent to the remote service. *)
Definition isRequest (e : GeminiService.Event) : bool :=
  match e with
  | GeminiService.GenerateContent _ _ => true
  | _ => false
  end.

(** The event is a call of the encoder. *)
Definition isEncode (e : App.Event) : bool :=
  match e with
  | FileToBase64 _ => true
  | _ => false
  end.

(** The two messages the real client can fail with, as [handleTryOn]
    shows them. *)
Definition shownMissingKey : string :=
  "An error occurred: API_KEY environment variable not set.. Please try again.".

Definition shownFailed : string :=
  "An error occurred: Failed to generate image. The model may be unavailable or the request was invalid.. Please try again.".

(** An inline part that carries data but declares no media type. *)
Definition untyped : GenAI.Part :=
  {| GenAI.inlineData := Some {| GenAI.data := Some "AAAA"; GenAI.mimeType := None |};
     GenAI.text := None |}.

Definition personFile : File := {| name := "person.jpg" |}.
Definition shirtFile : File := {| name := "shirt.png" |}.

(** An encoder that reads the two sample files and nothing else. *)
Definition encoder (f : File) : Outcome GeminiService.ImageData :=
  if String.eqb (name f) "person.jpg" then Return Sample.person
  else if String.eqb (name f) "shirt.png" then Return Sample.shirt
  else Throw (ErrorObject "read failed").

Definition objectURL (f : File) : string := ("blob:" ++ name f)%string.

(** A failed attempt is on display: an error, no result. *)
Definition failedBefore : AppState :=
  {| personImage := Some Sample.personUpload; clothingImage := Some Sample.shirtUpload;
     generatedImage := None; isLoading := false;
     error := Some "An error occurred: boom. Please try again." |}.

(** A result is on display. *)
Definition succeededBefore : AppState :=
  {| personImage := Some Sample.personUpload; clothingImage := Some Sample.shirtUpload;
     generatedImage := Some "data:image/png;base64,b2xk"; isLoading := false;
     error := None |}.
End Scenario.

(** * Properties of the generation client *)

Import Js.

Section ServiceProperties.
Import GenAI GeminiService Design.

Variable env : ProcessEnv.
Variable generateContent :
  GoogleGenAI -> GenerateContentParameters -> Outcome GenerateContentResponse.
Variables personImage clothingImage : ImageData.

Let run := generateVirtualTryOnImage env generateContent personImage clothingImage tt.
Let ai := {| apiKey := API_KEY env |}.
Let request := requestFor personImage clothingImage.

(** A falsy credential (absent, or the empty string) stops the call at the
    guard: nothing is constructed, sent or logged. *)
Lemma falsy_key_throws :
  truthy (API_KEY env) = false ->
  run = mkRes (Throw (ErrorObject missingKeyMessage)) tt [].
Proof.
  intros Hkey. subst run. unfold generateVirtualTryOnImage.
  rewrite Hkey. reflexivity.
Qed.

(** The scan skips parts without a payload or with another media type. *)
Lemma find_skips (pre rest : list Part) :
  Forall NotImagePart pre ->
  find isImagePart (pre ++ rest) = find isImagePart rest.
Proof.
  induction 1 as [| q pre Hq _ IH]; [reflexivity |].
  cbn [app find]. unfold isImagePart at 1.
  destruct Hq as [Hnone | (blob & m & Hblob & Hm & Hpre)].
  - rewrite Hnone. exact IH.
  - rewrite Hblob, Hm, Hpre. exact IH.
Qed.

(** The scan stops at the first image part. *)
Lemma find_first_image (pre post : list Part) (part : Part) (blob : Blob) :
  Forall NotImagePart pre ->
  ImagePart part blob ->
  find isImagePart (pre ++ part :: post) = Return (Some part).
Proof.
  intros Hpre (Hblob & m & Hm & Himg).
  rewrite find_skips by assumption.
  cbn [find]. unfold isImagePart. rewrite Hblob, Hm, Himg. reflexivity.
Qed.

(** With a credential, one request is sent, and what the scan finds decides
    the result. *)
Lemma resolved_with_image (response : GenerateContentResponse) (part : Part) (blob : Blob) :
  truthy (API_KEY env) = true ->
  generateContent ai request = Return response ->
  findImagePart response = Return (Some part) ->
  inlineData part = Some blob ->
  run = mkRes (Return (data blob)) tt [NewGoogleGenAI ai; GenerateContent ai request].
Proof.
  intros Hkey Hresp Hfind Hblob. subst run ai request.
  unfold generateVirtualTryOnImage. rewrite Hkey. cbn [negb].
  unfold bind, try_catch, emit, liftO, ret, throw. cbn.
  rewrite Hresp. cbn. rewrite Hfind. cbn. rewrite Hblob. reflexivity.
Qed.

(** A call that rejects: the cause is logged and the caller gets the
    generic failure. *)
Lemma rejected_call_surfaces_failed_message (err : Thrown) :
  truthy (API_KEY env) = true ->
  generateContent ai request = Throw err ->
  run = mkRes (Throw (ErrorObject failedMessage)) tt
          [NewGoogleGenAI ai; GenerateContent ai request;
           ConsoleError "Error calling Gemini API:" err].
Proof.
  intros Hkey Hresp. subst run ai request.
  unfold generateVirtualTryOnImage. rewrite Hkey. cbn [negb].
  unfold bind, try_catch, emit, liftO, ret, throw. cbn.
  rewrite Hresp. reflexivity.
Qed.

(** A response in which the scan finds nothing: the no-image error is
    thrown inside the [try], so it takes the same road as a rejected call. *)
Lemma no_image_part_surfaces_failed_message (response : GenerateContentResponse) :
  truthy (API_KEY env) = true ->
  generateContent ai request = Return response ->
  findImagePart response = Return None ->
  run = mkRes (Throw (ErrorObject failedMessage)) tt
          [NewGoogleGenAI ai; GenerateContent ai request;
           ConsoleError "Error calling Gemini API:" (ErrorObject noImageMessage)].
Proof.
  intros Hkey Hresp Hfind. subst run ai request.
  unfold generateVirtualTryOnImage. rewrite Hkey. cbn [negb].
  unfold bind, try_catch, emit, liftO, ret, throw. cbn.
  rewrite Hresp. cbn. rewrite Hfind. reflexivity.
Qed.

(** Whatever goes wrong once the request is under way, the caller sees the
    same error: the cause is only logged. *)
Lemma failure_after_request_is_generic (e : Thrown) :
  truthy (API_KEY env) = true ->
  outcome run = Throw e ->
  e = ErrorObject failedMessage.
Proof.
  intros Hkey. subst run. unfold generateVirtualTryOnImage.
  rewrite Hkey. cbn [negb].
  unfold bind, try_catch, emit, liftO, ret, throw. cbn.
  destruct (generateContent _ _) as [response | err]; cbn.
  - destruct (findImagePart response) as [[part |] | err]; cbn.
    + destruct (inlineData part); cbn; congruence.
    + congruence.
    + congruence.
  - congruence.
Qed.

(** C7. If the credential [API_KEY] is absent from the process environment,
    [generateVirtualTryOnImage] fails with the configuration error before
    any client is constructed or any request is sent to the remote service;
    in particular nothing is sent a second time. *)
Theorem missing_credential_fails_before_any_request :
  API_KEY env = None ->
  outcome run = Throw (ErrorObject "API_KEY environment variable not set.") /\
  events run = [] /\
  (forall a r, ~ In (GenerateContent a r) (events run)) /\
  (forall a, ~ In (NewGoogleGenAI a) (events run)).
Proof.
  intros Hkey.
  assert (Hrun : run = mkRes (Throw (ErrorObject missingKeyMessage)) tt []).
  { apply falsy_key_throws. rewrite Hkey. reflexivity. }
  rewrite Hrun. cbn. repeat split; intros; intro Hin; exact Hin.
Qed.


End ServiceProperties.

Section ServiceExamples.
Import GenAI GeminiService.

Lemma missing_credential_fails_before_any_request_witness :
  let run := generateVirtualTryOnImage Sample.noKey Sample.unreachable Sample.person Sample.shirt tt in
  outcome run = Throw (ErrorObject "API_KEY environment variable not set.") /\
  events run = [] /\
  (forall a r, ~ In (GenerateContent a r) (events run)) /\
  (forall a, ~ In (NewGoogleGenAI a) (events run)).
Proof.
  apply (missing_credential_fails_before_any_request
           Sample.noKey Sample.unreachable Sample.person Sample.shirt).
  reflexivity.
Defined.



(** C1. When the response holds no usable image part, the descriptive
    no-image error is raised inside the [try] block, so the [catch] that
    handles transport failures receives it as well: it is logged, and the
    caller gets the same message as for a call that rejects. *)
Theorem no_image_error_replaced_by_transport_message :
  let blocked := generateVirtualTryOnImage Sample.env
                   (Sample.answering [Sample.textOnly]) Sample.person Sample.shirt tt in
  let down := generateVirtualTryOnImage Sample.env Sample.unreachable Sample.person Sample.shirt tt in
  outcome blocked =
    Throw (ErrorObject
      "Failed to generate image. The model may be unavailable or the request was invalid.") /\
  outcome blocked = outcome down /\
  In (ConsoleError "Error calling Gemini API:"
        (ErrorObject
           "The API did not return a valid image. The response might have been blocked or did not meet safety guidelines."))
     (events blocked).
Proof.
  cbv zeta. split; [reflexivity | split; [reflexivity |]].
  cbn. right. right. left. reflexivity.
Qed.

End ServiceExamples.

(** * Properties of the workflow controller *)

Section ControllerProperties.
Import App Design.

Variable fileToBase64 : File -> Outcome GeminiService.ImageData.
Variable generate :
  GeminiService.ImageData -> GeminiService.ImageData ->
  Eff GeminiService.Event unit JsStr.

Ltac run_handler :=
  cbv [handleTryOn handleFileChange
       setPersonImage setClothingImage setGeneratedImage setIsLoading setError
       set bind try_catch try_finally emit modify get liftO call ret throw].

Ltac tidy :=
  unfold entry;
  cbn [app apply personImage clothingImage generatedImage isLoading error
       outcome final events].

Lemma replay_app (es es' : list Event) (s : AppState) :
  replay (es ++ es') s = replay es' (replay es s).
Proof. unfold replay. apply fold_left_app. Qed.

(** Events of the service do not touch the component state. *)
Lemma replay_service (es : list GeminiService.Event) (s : AppState) :
  replay (map Service es) s = s.
Proof. induction es as [| e es IH]; [reflexivity | exact IH]. Qed.


(** What the client did, split into outcome and events. *)
Lemma client_run (p c : GeminiService.ImageData) :
  generate p c tt
  = mkRes (outcome (generate p c tt)) tt (events (generate p c tt)).
Proof. destruct (generate p c tt) as [o [] es]. reflexivity. Qed.

(** The guard branch of [handleTryOn]. *)
Lemma handleTryOn_guard (s : AppState) :
  slotAbsent s ->
  handleTryOn generate s
  = mkRes (Return tt)
          (apply (SetError (Some bothImagesMessage)) s)
          [SetError (Some bothImagesMessage)].
Proof.
  intros Habsent. run_handler.
  destruct Habsent as [H | H]; rewrite H; [reflexivity |].
  destruct (personImage s); reflexivity.
Qed.

(** [handleTryOn] when the client resolves with [v]. *)
Lemma handleTryOn_resolved (s : AppState) (p c : ImageState) (v : JsStr) :
  personImage s = Some p ->
  clothingImage s = Some c ->
  outcome (generate (asImageData p) (asImageData c) tt) = Return v ->
  handleTryOn generate s
  = mkRes (Return tt)
          {| personImage := personImage s; clothingImage := clothingImage s;
             generatedImage := Some (dataUrlPrefix ++ template v)%string;
             isLoading := false; error := None |}
          (entry p c
           ++ map Service (events (generate (asImageData p) (asImageData c) tt))
           ++ [SetGeneratedImage (Some (dataUrlPrefix ++ template v)%string);
               SetIsLoading false]).
Proof.
  intros Hp Hc Hres. run_handler.
  rewrite Hp, Hc, client_run, Hres. tidy.
  rewrite <- app_assoc, Hp, Hc. reflexivity.
Qed.

(** [handleTryOn] when the client throws a value whose [message] can be
    read. *)
Lemma handleTryOn_rejected (s : AppState) (p c : ImageState) (err : Thrown) (m : JsStr) :
  personImage s = Some p ->
  clothingImage s = Some c ->
  outcome (generate (asImageData p) (asImageData c) tt) = Throw err ->
  messageOf err = Return m ->
  handleTryOn generate s
  = mkRes (Return tt)
          {| personImage := personImage s; clothingImage := clothingImage s;
             generatedImage := None;
             isLoading := false; error := Some (errorOccurred m) |}
          (entry p c
           ++ map Service (events (generate (asImageData p) (asImageData c) tt))
           ++ [SetError (Some (errorOccurred m)); ConsoleError err;
               SetIsLoading false]).
Proof.
  intros Hp Hc Hres Hm. run_handler.
  rewrite Hp, Hc, client_run, Hres, Hm. tidy.
  rewrite <- app_assoc, Hp, Hc. reflexivity.
Qed.

(** [handleTryOn] when the client throws [null] or [undefined]: reading
    [err.message] throws inside the [catch], and [finally] still runs. *)
Lemma handleTryOn_rejected_nullish (s : AppState) (p c : ImageState) (err e : Thrown) :
  personImage s = Some p ->
  clothingImage s = Some c ->
  outcome (generate (asImageData p) (asImageData c) tt) = Throw err ->
  messageOf err = Throw e ->
  handleTryOn generate s
  = mkRes (Throw e)
          {| personImage := personImage s; clothingImage := clothingImage s;
             generatedImage := None;
             isLoading := false; error := None |}
          (entry p c
           ++ map Service (events (generate (asImageData p) (asImageData c) tt))
           ++ [SetIsLoading false]).
Proof.
  intros Hp Hc Hres Hm. run_handler.
  rewrite Hp, Hc, client_run, Hres, Hm. tidy.
  rewrite app_nil_r, Hp, Hc. reflexivity.
Qed.

(** The three ways an attempt can end. *)
Lemma handleTryOn_cases (s : AppState) (p c : ImageState) :
  personImage s = Some p ->
  clothingImage s = Some c ->
  exists (o : Outcome unit) (s' : AppState) (closing : list Event),
    handleTryOn generate s
    = mkRes o s'
        (entry p c
         ++ map Service (events (generate (asImageData p) (asImageData c) tt))
         ++ closing ++ [SetIsLoading false]) /\
    isLoading s' = false /\
    existsb isGenerate closing = false.
Proof.
  intros Hp Hc.
  destruct (outcome (generate (asImageData p) (asImageData c) tt)) as [v | err] eqn:Hres.
  - rewrite (handleTryOn_resolved s p c v Hp Hc Hres).
    eexists _, _, [_]. repeat split.
  - destruct (messageOf err) as [m | e] eqn:Hm.
    + rewrite (handleTryOn_rejected s p c err m Hp Hc Hres Hm).
      eexists _, _, [_; _]. repeat split.
    + rewrite (handleTryOn_rejected_nullish s p c err e Hp Hc Hres Hm).
      eexists _, _, []. repeat split.
Qed.

(** The events of [handleTryOn] account for its whole effect on the state. *)
Lemma handleTryOn_replay (s : AppState) :
  final (handleTryOn generate s) = replay (events (handleTryOn generate s)) s.
Proof.
  destruct (personImage s) as [p |] eqn:Hp; [destruct (clothingImage s) as [c |] eqn:Hc |].
  - destruct (outcome (generate (asImageData p) (asImageData c) tt)) as [v | err] eqn:Hres;
      [| destruct (messageOf err) as [m | e] eqn:Hm].
    + rewrite (handleTryOn_resolved s p c v Hp Hc Hres). cbn [final events].
      rewrite !replay_app, replay_service. reflexivity.
    + rewrite (handleTryOn_rejected s p c err m Hp Hc Hres Hm). cbn [final events].
      rewrite !replay_app, replay_service. reflexivity.
    + rewrite (handleTryOn_rejected_nullish s p c err e Hp Hc Hres Hm). cbn [final events].
      rewrite !replay_app, replay_service. reflexivity.
  - rewrite handleTryOn_guard by (right; exact Hc). reflexivity.
  - rewrite handleTryOn_guard by (left; exact Hp). reflexivity.
Qed.

(** The events of [handleFileChange] account for its whole effect. *)
Lemma handleFileChange_replay (file : option File) (type : UploadType) (s : AppState) :
  final (handleFileChange fileToBase64 file type s)
  = replay (events (handleFileChange fileToBase64 file type s)) s.
Proof.
  run_handler.
  destruct file as [f |]; [| destruct type; reflexivity].
  destruct (fileToBase64 f); destruct type; reflexivity.
Qed.


(** C3, as the code has it.  When at least one upload slot is absent,
    [handleTryOn] does nothing but set the error message to
    "Please upload both images before trying on.": the generation client
    is not called, and the result, the loading indicator and the slots stay
    as they were, so a workflow that was Idle is still Idle. *)
Theorem validation_failure_only_sets_error (s : AppState) :
  slotAbsent s ->
  let r := handleTryOn generate s in
  events r = [SetError (Some "Please upload both images before trying on.")] /\
  existsb isGenerate (events r) = false /\
  error (final r) = Some "Please upload both images before trying on." /\
  generatedImage (final r) = generatedImage s /\
  isLoading (final r) = isLoading s /\
  personImage (final r) = personImage s /\
  clothingImage (final r) = clothingImage s /\
  (Idle s -> Idle (final r)).
Proof.
  intros Habsent. cbv zeta. rewrite (handleTryOn_guard s Habsent).
  cbn [events final]. do 7 (split; [reflexivity |]).
  intros (Hres & Hload). split; assumption.
Qed.

(** C5. If the generation client resolves with payload [P], [handleTryOn]
    ends in Succeeded and the exposed result is "data:image/png;base64,"
    followed by [P]. *)
Theorem resolved_payload_is_exposed_as_data_url
  (s : AppState) (p c : ImageState) (P : string) :
  personImage s = Some p ->
  clothingImage s = Some c ->
  outcome (generate (asImageData p) (asImageData c) tt) = Return (Some P) ->
  Succeeded (final (handleTryOn generate s)) ("data:image/png;base64," ++ P)%string.
Proof.
  intros Hp Hc Hres.
  rewrite (handleTryOn_resolved s p c (Some P) Hp Hc Hres).
  repeat split.
Qed.

(** C6. If the generation client raises an error with message [M],
    [handleTryOn] ends in Failed and the exposed error message is
    "An error occurred: M. Please try again.", which contains [M]. *)
Theorem client_error_message_is_embedded
  (s : AppState) (p c : ImageState) (M : string) :
  personImage s = Some p ->
  clothingImage s = Some c ->
  outcome (generate (asImageData p) (asImageData c) tt) = Throw (ErrorObject M) ->
  let shown := ("An error occurred: " ++ M ++ ". Please try again.")%string in
  Failed (final (handleTryOn generate s)) shown /\ contains shown M.
Proof.
  intros Hp Hc Hres shown. split.
  - rewrite (handleTryOn_rejected s p c (ErrorObject M) (Some M) Hp Hc Hres eq_refl).
    repeat split.
  - exists "An error occurred: ", ". Please try again.". reflexivity.
Qed.


(** C10. When [handleFileChange] is given a file and the encoding step
    fails, both upload slots, the generated result and the loading
    indicator are left as they were; only the error message is set. *)
Theorem failed_encoding_only_sets_error
  (s : AppState) (f : File) (type : UploadType) (err : Thrown) :
  fileToBase64 f = Throw err ->
  let r := handleFileChange fileToBase64 (Some f) type s in
  personImage (final r) = personImage s /\
  clothingImage (final r) = clothingImage s /\
  generatedImage (final r) = generatedImage s /\
  isLoading (final r) = isLoading s /\
  error (final r) = Some "Failed to process file. Please try another image." /\
  events r = [FileToBase64 f;
              SetError (Some "Failed to process file. Please try another image.");
              ConsoleError err].
Proof.
  intros Henc. run_handler. rewrite Henc. repeat split.
Qed.

End ControllerProperties.

(** * The controller on concrete sessions, and with the real client *)

Section ControllerExamples.
Import App Design.


(** The state [Sample.resultShownPersonCleared] arises in a session: upload
    both images, generate successfully, then clear the person slot. *)
Lemma resultShownPersonCleared_reachable :
  let upload f type s := final (handleFileChange
                                  (fun _ => Return (asImageData
                                     match type with
                                     | person => Sample.personUpload
                                     | clothing => Sample.shirtUpload
                                     end))
                                  f type s) in
  let s1 := upload (Some {| name := "person.jpg" |}) person initialState in
  let s2 := upload (Some {| name := "shirt.png" |}) clothing s1 in
  let s3 := final (handleTryOn (Sample.resolving "Zm9v") s2) in
  upload None person s3 = Sample.resultShownPersonCleared.
Proof. reflexivity. Qed.

(** C3, as stated, fails: with a result on display and the person slot
    cleared, the guard fires and the result stays, so the state is not
    Idle. *)
Lemma validation_failure_keeps_a_shown_result :
  slotAbsent Sample.resultShownPersonCleared /\
  ~ Idle (final (handleTryOn (Sample.resolving "Zm9v") Sample.resultShownPersonCleared)).
Proof.
  split; [left; reflexivity |].
  intros (Hres & _). cbn in Hres. discriminate Hres.
Qed.

Lemma validation_failure_only_sets_error_witness :
  let r := handleTryOn (Sample.resolving "Zm9v") Sample.personOnly in
  events r = [SetError (Some "Please upload both images before trying on.")] /\
  existsb isGenerate (events r) = false /\
  error (final r) = Some "Please upload both images before trying on." /\
  generatedImage (final r) = None /\
  isLoading (final r) = false /\
  personImage (final r) = Some Sample.personUpload /\
  clothingImage (final r) = None /\
  (Idle Sample.personOnly -> Idle (final r)).
Proof.
  apply (validation_failure_only_sets_error (Sample.resolving "Zm9v") Sample.personOnly).
  right. reflexivity.
Defined.

Lemma resolved_payload_is_exposed_as_data_url_witness :
  Succeeded (final (handleTryOn (Sample.resolving "Zm9v") Sample.ready))
            "data:image/png;base64,Zm9v".
Proof.
  apply (resolved_payload_is_exposed_as_data_url
           (Sample.resolving "Zm9v") Sample.ready
           Sample.personUpload Sample.shirtUpload "Zm9v"); reflexivity.
Defined.

Lemma client_error_message_is_embedded_witness :
  Failed (final (handleTryOn (Sample.failing "quota exceeded") Sample.ready))
         "An error occurred: quota exceeded. Please try again." /\
  contains "An error occurred: quota exceeded. Please try again." "quota exceeded".
Proof.
  apply (client_error_message_is_embedded
           (Sample.failing "quota exceeded") Sample.ready
           Sample.personUpload Sample.shirtUpload "quota exceeded"); reflexivity.
Defined.


Lemma failed_encoding_only_sets_error_witness :
  let f := {| name := "broken.png" |} in
  let r := handleFileChange Sample.unreadable (Some f) person Sample.ready in
  personImage (final r) = Some Sample.personUpload /\
  clothingImage (final r) = Some Sample.shirtUpload /\
  generatedImage (final r) = None /\
  isLoading (final r) = false /\
  error (final r) = Some "Failed to process file. Please try another image." /\
  events r = [FileToBase64 f;
              SetError (Some "Failed to process file. Please try another image.");
              ConsoleError (ErrorObject "read failed")].
Proof.
  apply (failed_encoding_only_sets_error
           Sample.unreadable Sample.ready {| name := "broken.png" |} person
           (ErrorObject "read failed")).
  reflexivity.
Defined.

End ControllerExamples.

Section WithRealClient.
Import GenAI GeminiService App Design.

Variable env : ProcessEnv.
Variable generateContent :
  GoogleGenAI -> GenerateContentParameters -> Outcome GenerateContentResponse.

(** C9. With the real client, a successful attempt exposes
    "data:image/png;base64," followed by the payload of the first image part
    of the response, whatever media type [m] that part declares: the label
    in the data reference is always [image/png]. *)
Theorem result_is_labelled_png_whatever_the_media_type
  (s : AppState) (p c : ImageState)
  (response : GenerateContentResponse) (pre post : list Part)
  (part : Part) (blob : Blob) (m : string) :
  personImage s = Some p ->
  clothingImage s = Some c ->
  truthy (API_KEY env) = true ->
  generateContent {| apiKey := API_KEY env |}
                  (requestFor (asImageData p) (asImageData c)) = Return response ->
  firstParts response = Some (pre ++ part :: post) ->
  Forall NotImagePart pre ->
  inlineData part = Some blob ->
  GenAI.mimeType blob = Some m ->
  startsWith m "image/" = true ->
  generatedImage (final (handleTryOn (generateVirtualTryOnImage env generateContent) s))
  = Some ("data:image/png;base64," ++ template (data blob))%string.
Proof.
  intros Hp Hc Hkey Hresp Hparts Hpre Hblob Hm Himg.
  assert (Hfind : findImagePart response = Return (Some part)).
  { unfold findImagePart. rewrite Hparts.
    apply (find_first_image pre post part blob Hpre).
    split; [exact Hblob | exists m; split; assumption]. }
  pose proof (resolved_with_image env generateContent (asImageData p) (asImageData c)
                response part blob Hkey Hresp Hfind Hblob) as Hrun.
  rewrite (handleTryOn_resolved (generateVirtualTryOnImage env generateContent)
             s p c (data blob) Hp Hc).
  - reflexivity.
  - rewrite Hrun. reflexivity.
Qed.

End WithRealClient.

Lemma result_is_labelled_png_whatever_the_media_type_witness :
  App.generatedImage
    (final (App.handleTryOn
              (GeminiService.generateVirtualTryOnImage Sample.env
                 (Sample.answering [Sample.textOnly; Sample.jpeg]))
              Sample.ready))
  = Some "data:image/png;base64,Zm9v".
Proof.
  apply (result_is_labelled_png_whatever_the_media_type
           Sample.env (Sample.answering [Sample.textOnly; Sample.jpeg]) Sample.ready
           Sample.personUpload Sample.shirtUpload
           (Design.respondsWith [Sample.textOnly; Sample.jpeg])
           [Sample.textOnly] [] Sample.jpeg
           {| GenAI.data := Some "Zm9v"; GenAI.mimeType := Some "image/jpeg" |}
           "image/jpeg"); try reflexivity.
  apply Forall_cons; [left; reflexivity | apply Forall_nil].
Defined.

(** * Further properties of the generation client *)

Section MoreServiceProperties.
Import GenAI GeminiService Design Scenario.

Variable env : ProcessEnv.
Variables personImage clothingImage : ImageData.

Let ai := {| apiKey := API_KEY env |}.
Let request := requestFor personImage clothingImage.
Let sent := [NewGoogleGenAI ai; GenerateContent ai request].
Let failure (cause : Thrown) : Res Event unit JsStr :=
  mkRes (Throw (ErrorObject failedMessage)) tt
        (sent ++ [ConsoleError "Error calling Gemini API:" cause]).

(** The whole function, once the credential check has passed, as a table
    over what the service and the scan give. *)
Lemma run_with_key
  (generateContent : GoogleGenAI -> GenerateContentParameters ->
                     Outcome GenerateContentResponse) :
  truthy (API_KEY env) = true ->
  generateVirtualTryOnImage env generateContent personImage clothingImage tt
  = match generateContent ai request with
    | Throw err => failure err
    | Return response =>
        match findImagePart response with
        | Throw err => failure err
        | Return None => failure (ErrorObject noImageMessage)
        | Return (Some part) =>
            match inlineData part with
            | Some blob => mkRes (Return (data blob)) tt sent
            | None => failure (ErrorObject noImageMessage)
            end
        end
    end.
Proof.
  intros Hkey. subst failure sent ai request.
  unfold generateVirtualTryOnImage. rewrite Hkey. cbn [negb].
  unfold bind, try_catch, emit, liftO, ret, throw. cbn.
  destruct (generateContent _ _) as [response | err]; cbn; [| reflexivity].
  destruct (findImagePart response) as [[part |] | err]; cbn; try reflexivity.
  destruct (inlineData part); reflexivity.
Qed.

(** What a successful scan has seen. *)
Lemma find_image_inv (ps : list Part) (part : Part) :
  find isImagePart ps = Return (Some part) ->
  exists pre post blob,
    ps = pre ++ part :: post /\ Forall NotImagePart pre /\ ImagePart part blob.
Proof.
  induction ps as [| q ps IH]; cbn [find]; [discriminate |].
  unfold isImagePart at 1.
  destruct (inlineData q) as [blob |] eqn:Hblob.
  - destruct (GenAI.mimeType blob) as [m |] eqn:Hm; [| discriminate].
    destruct (startsWith m "image/") eqn:Himg.
    + intros H. injection H as ->.
      exists [], ps, blob. split; [reflexivity |]. split; [constructor |].
      split; [exact Hblob | exists m; split; assumption].
    + intros H. destruct (IH H) as (pre & post & b & -> & Hpre & Hpart).
      exists (q :: pre), post, b. split; [reflexivity |].
      split; [| exact Hpart]. constructor; [| exact Hpre].
      right. exists blob, m. repeat split; assumption.
  - intros H. destruct (IH H) as (pre & post & b & -> & Hpre & Hpart).
    exists (q :: pre), post, b. split; [reflexivity |].
    split; [| exact Hpart]. constructor; [left; exact Hblob | exact Hpre].
Qed.

(** X1. The configuration error is raised exactly when the credential is
    falsy: absent, or the empty string. *)
Theorem configuration_error_iff_falsy_key
  (generateContent : GoogleGenAI -> GenerateContentParameters ->
                     Outcome GenerateContentResponse) :
  outcome (generateVirtualTryOnImage env generateContent personImage clothingImage tt)
    = Throw (ErrorObject "API_KEY environment variable not set.")
  <-> (API_KEY env = None \/ API_KEY env = Some "").
Proof.
  split.
  - destruct (truthy (API_KEY env)) eqn:Hkey.
    + rewrite (run_with_key generateContent Hkey).
      destruct (generateContent ai request) as [response | err]; cbn;
        [| discriminate].
      destruct (findImagePart response) as [[part |] | err]; cbn; try discriminate.
      destruct (inlineData part); cbn; discriminate.
    + intros _. destruct (API_KEY env) as [[| ch k] |]; cbn in Hkey;
        [right; reflexivity | discriminate | left; reflexivity].
  - intros [H | H]; unfold generateVirtualTryOnImage; rewrite H; reflexivity.
Qed.

(** X2. One call sends at most one request to the service, whatever the
    service answers: exactly one with a credential, none without. *)
Theorem exactly_one_request_when_credential_present
  (generateContent : GoogleGenAI -> GenerateContentParameters ->
                     Outcome GenerateContentResponse) :
  length (filter isRequest
            (events (generateVirtualTryOnImage env generateContent
                       personImage clothingImage tt)))
  = if truthy (API_KEY env) then 1 else 0.
Proof.
  destruct (truthy (API_KEY env)) eqn:Hkey.
  - rewrite (run_with_key generateContent Hkey).
    destruct (generateContent ai request) as [response | err]; [| reflexivity].
    destruct (findImagePart response) as [[part |] | err]; try reflexivity.
    destruct (inlineData part); reflexivity.
  - unfold generateVirtualTryOnImage. rewrite Hkey. reflexivity.
Qed.

(** X3. With a credential, every failure reaches the caller as the same
    generic error, and its cause is written to the console once, after the
    request: the service's own error text never reaches the caller. *)
Theorem failures_are_generic_and_logged
  (generateContent : GoogleGenAI -> GenerateContentParameters ->
                     Outcome GenerateContentResponse) (e : Thrown) :
  truthy (API_KEY env) = true ->
  outcome (generateVirtualTryOnImage env generateContent personImage clothingImage tt)
    = Throw e ->
  e = ErrorObject
        "Failed to generate image. The model may be unavailable or the request was invalid." /\
  exists cause,
    events (generateVirtualTryOnImage env generateContent personImage clothingImage tt)
    = [NewGoogleGenAI ai; GenerateContent ai request;
       ConsoleError "Error calling Gemini API:" cause] /\
    (forall err, generateContent ai request = Throw err -> cause = err).
Proof.
  intros Hkey. rewrite (run_with_key generateContent Hkey).
  destruct (generateContent ai request) as [response | err]; cbn.
  - destruct (findImagePart response) as [[part |] | err]; cbn.
    + destruct (inlineData part); cbn; [discriminate |].
      intros H; injection H as <-. split; [reflexivity |].
      eexists; split; [reflexivity | discriminate].
    + intros H; injection H as <-. split; [reflexivity |].
      eexists; split; [reflexivity | discriminate].
    + intros H; injection H as <-. split; [reflexivity |].
      eexists; split; [reflexivity | discriminate].
  - intros H; injection H as <-. split; [reflexivity |].
    exists err; split; [reflexivity |]. intros err' H'. congruence.
Qed.

(** X4. Only the first candidate of a response is looked at: candidates
    after it, whatever they hold, do not change the result. *)
Theorem later_candidates_are_ignored
  (service service' : GoogleGenAI -> GenerateContentParameters ->
                      Outcome GenerateContentResponse)
  (first : Candidate) (others : list Candidate) :
  service ai request = Return {| candidates := Some (first :: others) |} ->
  service' ai request = Return {| candidates := Some [first] |} ->
  generateVirtualTryOnImage env service personImage clothingImage tt
  = generateVirtualTryOnImage env service' personImage clothingImage tt.
Proof.
  intros H H'.
  destruct (truthy (API_KEY env)) eqn:Hkey.
  - rewrite (run_with_key service Hkey), (run_with_key service' Hkey), H, H'.
    reflexivity.
  - unfold generateVirtualTryOnImage. rewrite Hkey. reflexivity.
Qed.

(** X5. A response without candidates, with an empty candidate list, whose
    first candidate has no content, or whose content has no parts or an
    empty part list, is a failure: the optional chaining yields nothing,
    the no-image error is logged and the generic error is thrown. *)
Theorem response_without_parts_fails
  (generateContent : GoogleGenAI -> GenerateContentParameters ->
                     Outcome GenerateContentResponse)
  (response : GenerateContentResponse) :
  truthy (API_KEY env) = true ->
  generateContent ai request = Return response ->
  firstParts response = None \/ firstParts response = Some [] ->
  generateVirtualTryOnImage env generateContent personImage clothingImage tt
  = mkRes (Throw (ErrorObject failedMessage)) tt
      [NewGoogleGenAI ai; GenerateContent ai request;
       ConsoleError "Error calling Gemini API:" (ErrorObject noImageMessage)].
Proof.
  intros Hkey Hresp Hparts.
  rewrite (run_with_key generateContent Hkey), Hresp.
  unfold findImagePart. destruct Hparts as [-> | ->]; reflexivity.
Qed.

(** X6. The scan reads [mimeType] of every inline part without checking it
    is there.  A part with inline data but no media type, met before any
    image part, ends the scan with a TypeError: the call fails with the
    generic error even when an image part follows. *)
Theorem untyped_inline_part_aborts_the_scan
  (generateContent : GoogleGenAI -> GenerateContentParameters ->
                     Outcome GenerateContentResponse)
  (response : GenerateContentResponse)
  (pre post : list Part) (bad : Part) (blob : Blob) :
  truthy (API_KEY env) = true ->
  generateContent ai request = Return response ->
  firstParts response = Some (pre ++ bad :: post) ->
  Forall NotImagePart pre ->
  inlineData bad = Some blob ->
  GenAI.mimeType blob = None ->
  generateVirtualTryOnImage env generateContent personImage clothingImage tt
  = mkRes (Throw (ErrorObject failedMessage)) tt
      [NewGoogleGenAI ai; GenerateContent ai request;
       ConsoleError "Error calling Gemini API:" (readOfUndefined "startsWith")].
Proof.
  intros Hkey Hresp Hparts Hpre Hblob Hm.
  rewrite (run_with_key generateContent Hkey), Hresp.
  unfold findImagePart. rewrite Hparts, (find_skips pre (bad :: post) Hpre).
  cbn [find]. unfold isImagePart. rewrite Hblob, Hm. reflexivity.
Qed.

(** X7. A returned payload always comes from the response: when the call
    returns [v], the service resolved with a response whose first candidate
    holds an image part with payload [v], and no part before it is an image
    part. *)
Theorem returned_payload_is_the_first_image_part
  (generateContent : GoogleGenAI -> GenerateContentParameters ->
                     Outcome GenerateContentResponse) (v : JsStr) :
  outcome (generateVirtualTryOnImage env generateContent personImage clothingImage tt)
    = Return v ->
  truthy (API_KEY env) = true /\
  exists response pre part post blob,
    generateContent ai request = Return response /\
    firstParts response = Some (pre ++ part :: post) /\
    Forall NotImagePart pre /\
    ImagePart part blob /\
    v = data blob.
Proof.
  destruct (truthy (API_KEY env)) eqn:Hkey.
  - rewrite (run_with_key generateContent Hkey).
    destruct (generateContent ai request) as [response | err]; [| discriminate].
    unfold findImagePart.
    destruct (firstParts response) as [ps |] eqn:Hparts; [| discriminate].
    destruct (find isImagePart ps) as [[part |] | err] eqn:Hfind; try discriminate.
    destruct (find_image_inv ps part Hfind) as (pre & post & blob & -> & Hpre & Hpart).
    destruct Hpart as (Hblob & Hm). rewrite Hblob. cbn.
    intros H; injection H as <-. split; [reflexivity |].
    exists response, pre, part, post, blob.
    repeat split; assumption.
  - unfold generateVirtualTryOnImage. rewrite Hkey. discriminate.
Qed.

End MoreServiceProperties.

(** * Further properties of the workflow controller *)

Section MoreControllerProperties.
Import App Design Scenario.

Variable fileToBase64 : File -> Outcome GeminiService.ImageData.
Variable generate :
  GeminiService.ImageData -> GeminiService.ImageData ->
  Eff GeminiService.Event unit JsStr.

Ltac run_upload :=
  cbv [handleFileChange setPersonImage setClothingImage setError set
       bind try_catch emit modify liftO].

(** [handleFileChange] with no file. *)
Lemma handleFileChange_cleared (type : UploadType) (s : AppState) :
  handleFileChange fileToBase64 None type s
  = mkRes (Return tt) (apply (slotEvent type None) s) [slotEvent type None].
Proof. destruct type; reflexivity. Qed.

(** [handleFileChange] when the encoder succeeds. *)
Lemma handleFileChange_stored
  (f : File) (encoded : GeminiService.ImageData) (type : UploadType) (s : AppState) :
  fileToBase64 f = Return encoded ->
  handleFileChange fileToBase64 (Some f) type s
  = mkRes (Return tt)
          (apply (slotEvent type (Some (stored f encoded))) s)
          [FileToBase64 f; slotEvent type (Some (stored f encoded))].
Proof. intros Henc. run_upload. rewrite Henc. destruct type; reflexivity. Qed.

(** [handleFileChange] when the encoder fails. *)
Lemma handleFileChange_failed
  (f : File) (err : Thrown) (type : UploadType) (s : AppState) :
  fileToBase64 f = Throw err ->
  handleFileChange fileToBase64 (Some f) type s
  = mkRes (Return tt)
          (apply (SetError (Some processFailedMessage)) s)
          [FileToBase64 f; SetError (Some processFailedMessage); ConsoleError err].
Proof. intros Henc. run_upload. rewrite Henc. reflexivity. Qed.

(** X8. [handleFileChange] with no file empties the slot of that role and
    nothing else: the other slot, the result, the loading indicator and the
    error message stay, and the encoder is not called. *)
Theorem clearing_a_slot_touches_nothing_else (type : UploadType) (s : AppState) :
  let r := handleFileChange fileToBase64 None type s in
  slot type (final r) = None /\
  slot (otherType type) (final r) = slot (otherType type) s /\
  generatedImage (final r) = generatedImage s /\
  isLoading (final r) = isLoading s /\
  error (final r) = error s /\
  existsb isEncode (events r) = false.
Proof.
  cbv zeta. rewrite handleFileChange_cleared.
  destruct type; repeat split.
Qed.

(** X9. When the encoder succeeds, [handleFileChange] stores the file with
    the encoder's payload and media type in the slot of that role.  The
    other slot, the result and the loading indicator stay, and so does the
    error message: a message left by an earlier failure is not cleared by a
    successful upload. *)
Theorem successful_upload_fills_the_slot_and_keeps_the_error
  (f : File) (encoded : GeminiService.ImageData) (type : UploadType) (s : AppState) :
  fileToBase64 f = Return encoded ->
  let r := handleFileChange fileToBase64 (Some f) type s in
  slot type (final r)
    = Some {| file := f;
              base64 := GeminiService.base64 encoded;
              mimeType := GeminiService.mimeType encoded |} /\
  slot (otherType type) (final r) = slot (otherType type) s /\
  generatedImage (final r) = generatedImage s /\
  isLoading (final r) = isLoading s /\
  error (final r) = error s.
Proof.
  intros Henc. cbv zeta. rewrite (handleFileChange_stored f encoded type s Henc).
  destruct type; repeat split.
Qed.

(** X10. [handleFileChange] never throws, whatever the encoder does, and
    calls the encoder once when given a file and not at all otherwise. *)
Theorem upload_handler_never_throws (file : option File) (type : UploadType) (s : AppState) :
  let r := handleFileChange fileToBase64 file type s in
  outcome r = Return tt /\
  length (filter isEncode (events r)) = if View.present file then 1 else 0.
Proof.
  cbv zeta. destruct file as [f |].
  - destruct (fileToBase64 f) as [encoded | err] eqn:Henc.
    + rewrite (handleFileChange_stored f encoded type s Henc).
      destruct type; split; reflexivity.
    + rewrite (handleFileChange_failed f err type s Henc). split; reflexivity.
  - rewrite handleFileChange_cleared. destruct type; split; reflexivity.
Qed.

(** X11. When the client throws [null] or [undefined], the [catch] block
    of [handleTryOn] does not handle it: reading [err.message] throws
    there, so no error message is set and nothing is logged, and the
    handler itself ends with an exception.  [finally] has still run: the
    loading indicator is cleared, last of all, and no result is shown. *)
Theorem nullish_throw_escapes_the_catch_block (s : AppState) (p c : ImageState) :
  personImage s = Some p ->
  clothingImage s = Some c ->
  outcome (generate (asImageData p) (asImageData c) tt) = Throw Nullish ->
  let r := handleTryOn generate s in
  (exists e, outcome r = Throw e) /\
  events r
  = [SetIsLoading true; SetError None; SetGeneratedImage None;
     Generate (asImageData p) (asImageData c)]
    ++ map Service (events (generate (asImageData p) (asImageData c) tt))
    ++ [SetIsLoading false] /\
  error (final r) = None /\
  generatedImage (final r) = None /\
  isLoading (final r) = false.
Proof.
  intros Hp Hc Hres. cbv zeta.
  rewrite (handleTryOn_rejected_nullish generate s p c Nullish _ Hp Hc Hres eq_refl).
  split; [eexists; reflexivity |]. repeat split.
Qed.

(** X13. Clearing a slot and then asking for a try-on fails validation:
    the client is not called and the validation message is shown. *)
Theorem tryOn_after_clearing_fails_validation (type : UploadType) (s : AppState) :
  let cleared := final (handleFileChange fileToBase64 None type s) in
  let r := handleTryOn generate cleared in
  error (final r) = Some "Please upload both images before trying on." /\
  existsb isGenerate (events r) = false /\
  View.isButtonDisabled cleared = true.
Proof.
  cbv zeta. rewrite handleFileChange_cleared. cbn [final].
  assert (Habsent : slotAbsent (apply (slotEvent type None) s)).
  { destruct type; [left | right]; reflexivity. }
  rewrite (handleTryOn_guard generate _ Habsent).
  split; [reflexivity |]. split; [reflexivity |].
  unfold View.isButtonDisabled. destruct type; cbn.
  - reflexivity.
  - destruct (personImage s); reflexivity.
Qed.

(** X14. Uploads of the two roles are independent: handling a person file
    and a clothing file (or removals, or files that fail to encode) leaves
    the same state in either order. *)
Theorem uploads_of_the_two_roles_commute (fp fc : option File) (s : AppState) :
  final (handleFileChange fileToBase64 fc clothing
           (final (handleFileChange fileToBase64 fp person s)))
  = final (handleFileChange fileToBase64 fp person
             (final (handleFileChange fileToBase64 fc clothing s))).
Proof.
  assert (Hrun : forall file type s0,
    final (handleFileChange fileToBase64 file type s0)
    = match file with
      | None => apply (slotEvent type None) s0
      | Some f =>
          match fileToBase64 f with
          | Return encoded => apply (slotEvent type (Some (stored f encoded))) s0
          | Throw _ => apply (SetError (Some processFailedMessage)) s0
          end
      end).
  { intros [f |] type s0.
    - destruct (fileToBase64 f) as [encoded | err] eqn:Henc.
      + rewrite (handleFileChange_stored f encoded type s0 Henc). reflexivity.
      + rewrite (handleFileChange_failed f err type s0 Henc). reflexivity.
    - rewrite handleFileChange_cleared. reflexivity. }
  rewrite !Hrun.
  destruct fp as [f1 |], fc as [f2 |];
    try destruct (fileToBase64 f1); try destruct (fileToBase64 f2); reflexivity.
Qed.

(** X15. A new selection supersedes the previous one for the same role:
    after an upload or a removal that went through, a second successful
    upload for that role leaves exactly the state it would have left on
    its own. *)
Theorem reupload_supersedes_the_previous_one
  (first : option File) (f : File) (encoded : GeminiService.ImageData)
  (type : UploadType) (s : AppState) :
  fileToBase64 f = Return encoded ->
  (forall f0 err, first = Some f0 -> fileToBase64 f0 <> Throw err) ->
  final (handleFileChange fileToBase64 (Some f) type
           (final (handleFileChange fileToBase64 first type s)))
  = final (handleFileChange fileToBase64 (Some f) type s).
Proof.
  intros Henc Hfirst.
  rewrite !(handleFileChange_stored f encoded type _ Henc). cbn [final].
  destruct first as [f0 |].
  - destruct (fileToBase64 f0) as [e0 | err] eqn:H0.
    + rewrite (handleFileChange_stored f0 e0 type s H0). destruct type; reflexivity.
    + exfalso. exact (Hfirst f0 err eq_refl H0).
  - rewrite handleFileChange_cleared. destruct type; reflexivity.
Qed.

(** X16. With both slots populated, a run of [handleTryOn] is determined by
    the two uploads and the client alone: whatever result, error message or
    loading flag was there before has no influence on its events, its
    outcome or the state it leaves. *)
Theorem attempt_depends_only_on_the_uploads (s s' : AppState) (p c : ImageState) :
  personImage s = Some p -> clothingImage s = Some c ->
  personImage s' = Some p -> clothingImage s' = Some c ->
  handleTryOn generate s = handleTryOn generate s'.
Proof.
  intros Hp Hc Hp' Hc'.
  destruct (outcome (generate (asImageData p) (asImageData c) tt)) as [v | err] eqn:Hres;
    [| destruct (messageOf err) as [m | e] eqn:Hm].
  - rewrite (handleTryOn_resolved generate s p c v Hp Hc Hres),
            (handleTryOn_resolved generate s' p c v Hp' Hc' Hres).
    rewrite Hp, Hc, Hp', Hc'. reflexivity.
  - rewrite (handleTryOn_rejected generate s p c err m Hp Hc Hres Hm),
            (handleTryOn_rejected generate s' p c err m Hp' Hc' Hres Hm).
    rewrite Hp, Hc, Hp', Hc'. reflexivity.
  - rewrite (handleTryOn_rejected_nullish generate s p c err e Hp Hc Hres Hm),
            (handleTryOn_rejected_nullish generate s' p c err e Hp' Hc' Hres Hm).
    rewrite Hp, Hc, Hp', Hc'. reflexivity.
Qed.

(** X17. [handleTryOn] never changes the upload slots, whatever the state
    and whatever the client does. *)
Theorem tryOn_keeps_the_uploads (s : AppState) :
  personImage (final (handleTryOn generate s)) = personImage s /\
  clothingImage (final (handleTryOn generate s)) = clothingImage s.
Proof.
  destruct (personImage s) as [p |] eqn:Hp; [destruct (clothingImage s) as [c |] eqn:Hc |].
  - destruct (outcome (generate (asImageData p) (asImageData c) tt)) as [v | err] eqn:Hres;
      [| destruct (messageOf err) as [m | e] eqn:Hm].
    + rewrite (handleTryOn_resolved generate s p c v Hp Hc Hres). split; assumption.
    + rewrite (handleTryOn_rejected generate s p c err m Hp Hc Hres Hm). split; assumption.
    + rewrite (handleTryOn_rejected_nullish generate s p c err e Hp Hc Hres Hm).
      split; assumption.
  - rewrite (handleTryOn_guard generate s) by (right; exact Hc). split; cbn; assumption.
  - rewrite (handleTryOn_guard generate s) by (left; exact Hp).
    split; cbn; [assumption | reflexivity].
Qed.

(** X18. [handleTryOn] calls the client exactly once when both slots are
    populated and not at all otherwise.  The loading indicator plays no
    part: the handler has no guard against being invoked while an attempt
    is in flight. *)
Theorem client_called_once_iff_both_uploaded (s : AppState) :
  length (filter isGenerate (events (handleTryOn generate s)))
  = if View.present (personImage s) && View.present (clothingImage s) then 1 else 0.
Proof.
  assert (Hservice : forall es : list GeminiService.Event,
             filter isGenerate (map Service es) = []).
  { induction es as [| e0 es IH]; [reflexivity | exact IH]. }
  destruct (personImage s) as [p |] eqn:Hp; [destruct (clothingImage s) as [c |] eqn:Hc |].
  - destruct (handleTryOn_cases generate s p c Hp Hc)
      as (o & s' & closing & Hrun & _ & Hclosing).
    rewrite Hrun. cbn [events View.present andb]. unfold entry.
    rewrite !filter_app, Hservice. cbn.
    assert (Hnone : filter isGenerate closing = []).
    { clear Hrun. induction closing as [| e0 closing IH]; [reflexivity |].
      cbn in Hclosing |- *. destruct (isGenerate e0); [discriminate |].
      apply IH. exact Hclosing. }
    rewrite Hnone. reflexivity.
  - rewrite (handleTryOn_guard generate s) by (right; exact Hc). reflexivity.
  - rewrite (handleTryOn_guard generate s) by (left; exact Hp). reflexivity.
Qed.

End MoreControllerProperties.

(** * The controller together with the view, the download and the box *)

Section ViewAndDownloadProperties.
Import App Design Scenario.

Variable generate :
  GeminiService.ImageData -> GeminiService.ImageData ->
  Eff GeminiService.Event unit JsStr.

(** The state an attempt ends in, by what the client did. *)
Lemma attempt_final_state (s : AppState) (p c : ImageState) :
  personImage s = Some p ->
  clothingImage s = Some c ->
  final (handleTryOn generate s)
  = {| personImage := Some p; clothingImage := Some c;
       generatedImage :=
         match outcome (generate (asImageData p) (asImageData c) tt) with
         | Return v => Some (dataUrlPrefix ++ template v)%string
         | Throw _ => None
         end;
       isLoading := false;
       error :=
         match outcome (generate (asImageData p) (asImageData c) tt) with
         | Return _ => None
         | Throw err =>
             match messageOf err with
             | Return m => Some (errorOccurred m)
             | Throw _ => None
             end
         end |}.
Proof.
  intros Hp Hc.
  destruct (outcome (generate (asImageData p) (asImageData c) tt)) as [v | err] eqn:Hres;
    [| destruct (messageOf err) as [m | e] eqn:Hm].
  - rewrite (handleTryOn_resolved generate s p c v Hp Hc Hres), Hp, Hc. reflexivity.
  - rewrite (handleTryOn_rejected generate s p c err m Hp Hc Hres Hm), Hp, Hc. reflexivity.
  - rewrite (handleTryOn_rejected_nullish generate s p c err e Hp Hc Hres Hm), Hp, Hc.
    reflexivity.
Qed.

Lemma enabled_button_inv (s : AppState) :
  View.isButtonDisabled s = false ->
  exists p c, personImage s = Some p /\ clothingImage s = Some c /\ isLoading s = false.
Proof.
  unfold View.isButtonDisabled.
  destruct (personImage s) as [p |]; [| discriminate].
  destruct (clothingImage s) as [c |]; [| discriminate].
  destruct (isLoading s); [discriminate |].
  intros _. exists p, c. repeat split.
Qed.

(** X20. Whenever the button is enabled, a click starts a generation
    attempt: the events begin with the entry sequence and the client call,
    and whatever the client does the validation message is not what ends
    up shown.  The validation branch of [handleTryOn] is out of reach of
    the button. *)
Theorem enabled_button_starts_an_attempt (s : AppState) :
  View.isButtonDisabled s = false ->
  (exists p c rest,
     personImage s = Some p /\ clothingImage s = Some c /\
     events (handleTryOn generate s)
     = [SetIsLoading true; SetError None; SetGeneratedImage None;
        Generate (asImageData p) (asImageData c)] ++ rest) /\
  error (final (handleTryOn generate s))
    <> Some "Please upload both images before trying on.".
Proof.
  intros Henabled.
  destruct (enabled_button_inv s Henabled) as (p & c & Hp & Hc & _).
  split.
  - destruct (handleTryOn_cases generate s p c Hp Hc) as (o & s' & closing & Hrun & _).
    exists p, c. eexists. split; [exact Hp |]. split; [exact Hc |].
    rewrite Hrun. reflexivity.
  - rewrite (attempt_final_state s p c Hp Hc). cbn [error].
    destruct (outcome (generate (asImageData p) (asImageData c) tt)) as [v | err];
      [discriminate |].
    destruct (messageOf err) as [m | e]; [| discriminate].
    unfold errorOccurred. cbn [append]. discriminate.
Qed.

(** X21. While the client call is in flight (the state left by the events
    up to the call), the button is disabled and reads "Generating...", the
    overlay is up, and neither an error, nor the placeholder, nor a result
    with its download button is on screen. *)
Theorem view_while_generating (s : AppState) (p c : ImageState) :
  personImage s = Some p ->
  clothingImage s = Some c ->
  (exists rest, events (handleTryOn generate s) = entry p c ++ rest) /\
  View.render (replay (entry p c) s)
  = {| View.buttonDisabled := true;
       View.buttonLabel := "Generating...";
       View.errorText := None;
       View.overlay := true;
       View.placeholder := false;
       View.resultSrc := None;
       View.downloadButton := false |}.
Proof.
  intros Hp Hc. split.
  - destruct (handleTryOn_cases generate s p c Hp Hc) as (o & s' & closing & Hrun & _).
    eexists. rewrite Hrun. reflexivity.
  - unfold View.render, View.isButtonDisabled. cbn. rewrite Hp, Hc. reflexivity.
Qed.

(** X22. An attempt never leaves the button disabled: after [handleTryOn]
    has run from a state with both uploads, whatever the client did, the
    button is enabled again and the overlay is gone. *)
Theorem button_is_enabled_again_after_an_attempt (s : AppState) :
  bothUploaded s ->
  View.isButtonDisabled (final (handleTryOn generate s)) = false /\
  View.overlay (View.render (final (handleTryOn generate s))) = false.
Proof.
  intros (p & c & Hp & Hc).
  rewrite (attempt_final_state s p c Hp Hc). split; reflexivity.
Qed.

(** X23. After a successful attempt with payload [P] the page shows the
    result image, with the data reference as its source, and the download
    button; no error, no overlay, no placeholder; the button is enabled. *)
Theorem view_after_success (s : AppState) (p c : ImageState) (P : string) :
  personImage s = Some p ->
  clothingImage s = Some c ->
  outcome (generate (asImageData p) (asImageData c) tt) = Return (Some P) ->
  View.render (final (handleTryOn generate s))
  = {| View.buttonDisabled := false;
       View.buttonLabel := "Try It On";
       View.errorText := None;
       View.overlay := false;
       View.placeholder := false;
       View.resultSrc := Some ("data:image/png;base64," ++ P)%string;
       View.downloadButton := true |}.
Proof.
  intros Hp Hc Hres.
  rewrite (attempt_final_state s p c Hp Hc), Hres. reflexivity.
Qed.

(** X24. After a failed attempt the page shows the error text and the
    placeholder, and no result or download button, even when a result of
    an earlier attempt was on display before. *)
Theorem view_after_failure (s : AppState) (p c : ImageState) (M : string) :
  personImage s = Some p ->
  clothingImage s = Some c ->
  outcome (generate (asImageData p) (asImageData c) tt) = Throw (ErrorObject M) ->
  View.render (final (handleTryOn generate s))
  = {| View.buttonDisabled := false;
       View.buttonLabel := "Try It On";
       View.errorText := Some ("An error occurred: " ++ M ++ ". Please try again.")%string;
       View.overlay := false;
       View.placeholder := true;
       View.resultSrc := None;
       View.downloadButton := false |}.
Proof.
  intros Hp Hc Hres.
  rewrite (attempt_final_state s p c Hp Hc), Hres. reflexivity.
Qed.

(** X25. After a successful attempt with payload [P], [handleDownload]
    attaches a link whose target is the data reference of [P] and whose
    file name is "clothy-try-on.png", clicks it and removes it again; the
    component state is not touched. *)
Theorem download_after_success (s : AppState) (p c : ImageState) (P : string) :
  personImage s = Some p ->
  clothingImage s = Some c ->
  outcome (generate (asImageData p) (asImageData c) tt) = Return (Some P) ->
  let shown := final (handleTryOn generate s) in
  let link := {| Download.href := ("data:image/png;base64," ++ P)%string;
                 Download.download := "clothy-try-on.png" |} in
  Download.handleDownload shown
  = mkRes (Return tt) shown
      [Download.CreateElement "a"; Download.AppendChild link;
       Download.Click link; Download.RemoveChild link].
Proof.
  intros Hp Hc Hres. cbv zeta.
  rewrite (attempt_final_state s p c Hp Hc), Hres. reflexivity.
Qed.

(** X26. After an attempt in which the client threw, [handleDownload] does
    nothing at all, even when a result of an earlier attempt was on display
    before: the failed attempt has cleared it. *)
Theorem nothing_to_download_after_failure
  (s : AppState) (p c : ImageState) (err : Thrown) :
  personImage s = Some p ->
  clothingImage s = Some c ->
  outcome (generate (asImageData p) (asImageData c) tt) = Throw err ->
  let shown := final (handleTryOn generate s) in
  Download.handleDownload shown = mkRes (Return tt) shown [].
Proof.
  intros Hp Hc Hres. cbv zeta.
  rewrite (attempt_final_state s p c Hp Hc), Hres. reflexivity.
Qed.

End ViewAndDownloadProperties.

Section BoxProperties.
Import App Design Scenario.

Variable createObjectURL : File -> string.
Variable fileToBase64 : File -> Outcome GeminiService.ImageData.

Ltac run_box :=
  cbv [UploadBox.boxFor UploadBox.handleFileChange UploadBox.setPreview
       UploadBox.setFileName UploadBox.parent bind emit modify].

(** X27. Closing the file dialog without a file (no file list, or an empty
    one) resets the box (no preview, no name) and empties the slot of its
    role in [App], so the try-on button is disabled afterwards. *)
Theorem cancelled_selection_clears_box_and_slot
  (files : option (list File)) (type : UploadType)
  (box : UploadBox.State) (s : AppState) :
  files = None \/ files = Some [] ->
  let r := UploadBox.boxFor createObjectURL fileToBase64 type files (box, s) in
  fst (final r) = {| UploadBox.preview := None; UploadBox.fileName := "" |} /\
  snd (final r) = apply (slotEvent type None) s /\
  slot type (snd (final r)) = None /\
  View.isButtonDisabled (snd (final r)) = true.
Proof.
  intros Hfiles. cbv zeta.
  assert (Hrun : final (UploadBox.boxFor createObjectURL fileToBase64 type files (box, s))
                 = ({| UploadBox.preview := None; UploadBox.fileName := "" |},
                    apply (slotEvent type None) s)).
  { run_box. destruct Hfiles as [-> | ->]; cbn [UploadBox.firstFile nth_error];
      cbn [fst snd]; rewrite handleFileChange_cleared; reflexivity. }
  rewrite Hrun. cbn [fst snd]. split; [reflexivity |]. split; [reflexivity |].
  unfold View.isButtonDisabled. destruct type; cbn.
  - split; reflexivity.
  - split; [reflexivity |]. destruct (personImage s); reflexivity.
Qed.

(** X28. The box shows a selected file before it is encoded, and keeps
    showing it when the encoding fails: the preview and the name are those
    of the new file, while the slot in [App] still holds what it held
    before and the error message is set.  What is on screen in the box and
    what a try-on would send can differ. *)
Theorem failed_encoding_leaves_preview_and_slot_apart
  (f : File) (rest : list File) (err : Thrown) (type : UploadType)
  (box : UploadBox.State) (s : AppState) :
  fileToBase64 f = Throw err ->
  let r := UploadBox.boxFor createObjectURL fileToBase64 type (Some (f :: rest)) (box, s) in
  outcome r = Return tt /\
  UploadBox.preview (fst (final r)) = Some (createObjectURL f) /\
  UploadBox.fileName (fst (final r)) = name f /\
  slot type (snd (final r)) = slot type s /\
  error (snd (final r)) = Some "Failed to process file. Please try another image.".
Proof.
  intros Henc. cbv zeta. run_box.
  cbn [UploadBox.firstFile nth_error fst snd].
  rewrite (handleFileChange_failed fileToBase64 f err type s Henc).
  destruct type; repeat split.
Qed.

End BoxProperties.

Section EndToEnd.
Import GenAI GeminiService App Design Scenario.

Variable env : ProcessEnv.
Variable generateContent :
  GoogleGenAI -> GenerateContentParameters -> Outcome GenerateContentResponse.
Variable fileToBase64 : File -> Outcome ImageData.

Let client := generateVirtualTryOnImage env generateContent.

(** What the real client can end with. *)
Lemma client_outcomes (p c : ImageData) :
  (exists v, outcome (client p c tt) = Return v) \/
  outcome (client p c tt) = Throw (ErrorObject missingKeyMessage) \/
  outcome (client p c tt) = Throw (ErrorObject failedMessage).
Proof.
  subst client.
  destruct (outcome (generateVirtualTryOnImage env generateContent p c tt))
    as [v | e] eqn:Hres.
  - left. exists v. reflexivity.
  - right. destruct (truthy (API_KEY env)) eqn:Hkey.
    + right. f_equal.
      exact (failure_after_request_is_generic env generateContent p c e Hkey Hres).
    + left. rewrite (falsy_key_throws env generateContent p c Hkey) in Hres.
      symmetry. exact Hres.
Qed.

(** With a credential the request is sent, and it is the one built from
    the two images. *)
Lemma request_is_sent (p c : ImageData) :
  truthy (API_KEY env) = true ->
  In (GenerateContent {| apiKey := API_KEY env |} (requestFor p c))
     (events (client p c tt)).
Proof.
  intros Hkey. subst client. rewrite (run_with_key env p c generateContent Hkey).
  destruct (generateContent _ _) as [response | err]; [| right; left; reflexivity].
  destruct (findImagePart response) as [[part |] | err];
    try (right; left; reflexivity).
  destruct (inlineData part); right; left; reflexivity.
Qed.

(** X12. With the real client, [handleTryOn] never rejects, and from a
    state with both uploads it ends in one of three ways: Succeeded with a
    data reference, Failed with the missing-credential message, or Failed
    with the generic failure message.  (Both texts end in a full stop that
    the template follows with another.) *)
Theorem attempt_with_real_client_ends_succeeded_or_failed
  (s : AppState) (p c : ImageState) :
  personImage s = Some p ->
  clothingImage s = Some c ->
  let r := handleTryOn client s in
  outcome r = Return tt /\
  ((exists v, Succeeded (final r) ("data:image/png;base64," ++ template v)%string) \/
   Failed (final r)
     "An error occurred: API_KEY environment variable not set.. Please try again." \/
   Failed (final r)
     "An error occurred: Failed to generate image. The model may be unavailable or the request was invalid.. Please try again.").
Proof.
  intros Hp Hc. cbv zeta.
  destruct (client_outcomes (asImageData p) (asImageData c)) as [(v & Hres) | [Hres | Hres]].
  - rewrite (handleTryOn_resolved client s p c v Hp Hc Hres).
    split; [reflexivity |]. left. exists v. repeat split.
  - rewrite (handleTryOn_rejected client s p c _ (Some missingKeyMessage) Hp Hc Hres eq_refl).
    split; [reflexivity |]. right. left. repeat split.
  - rewrite (handleTryOn_rejected client s p c _ (Some failedMessage) Hp Hc Hres eq_refl).
    split; [reflexivity |]. right. right. repeat split.
Qed.

(** X19. From upload to request: after a person file and a clothing file
    have been encoded and stored, a try-on with a credential sends the
    service one request holding exactly what the encoder produced (payload
    and media type of the person, then of the clothing, then the
    instruction text), for the image model and image output only. *)
Theorem uploads_reach_the_service_unchanged
  (s : AppState) (personFile clothingFile : File) (encodedPerson encodedClothing : ImageData) :
  fileToBase64 personFile = Return encodedPerson ->
  fileToBase64 clothingFile = Return encodedClothing ->
  truthy (API_KEY env) = true ->
  let s1 := final (handleFileChange fileToBase64 (Some personFile) person s) in
  let s2 := final (handleFileChange fileToBase64 (Some clothingFile) clothing s1) in
  In (Service
        (GenerateContent {| apiKey := API_KEY env |}
           {| model := "gemini-2.5-flash-image";
              contents :=
                {| parts := Some
                     [ {| inlineData :=
                            Some {| data := Some (GeminiService.base64 encodedPerson);
                                    GenAI.mimeType := Some (GeminiService.mimeType encodedPerson) |};
                          text := None |};
                       {| inlineData :=
                            Some {| data := Some (GeminiService.base64 encodedClothing);
                                    GenAI.mimeType := Some (GeminiService.mimeType encodedClothing) |};
                          text := None |};
                       {| inlineData := None; text := Some prompt |} ] |};
              config := {| responseModalities := [IMAGE] |} |}))
     (events (handleTryOn client s2)).
Proof.
  intros Hperson Hclothing Hkey. cbv zeta.
  rewrite (handleFileChange_stored fileToBase64 personFile encodedPerson person s Hperson).
  cbn [final].
  rewrite (handleFileChange_stored fileToBase64 clothingFile encodedClothing clothing _
             Hclothing).
  cbn [final].
  set (s2 := apply _ (apply _ s)).
  assert (Hp : personImage s2 = Some (stored personFile encodedPerson)) by reflexivity.
  assert (Hc : clothingImage s2 = Some (stored clothingFile encodedClothing)) by reflexivity.
  destruct (handleTryOn_cases client s2 _ _ Hp Hc) as (o & s' & closing & Hrun & _).
  rewrite Hrun. cbn [events].
  apply in_or_app. right. apply in_or_app. left.
  apply in_map.
  assert (Heta : forall (f : File) (e : ImageData), asImageData (stored f e) = e).
  { intros f [b m]. reflexivity. }
  rewrite !Heta.
  exact (request_is_sent encodedPerson encodedClothing Hkey).
Qed.

End EndToEnd.

(** * The further properties on concrete sessions *)

Section MoreExamples.
Import GenAI GeminiService App Design Scenario.

Lemma failures_are_generic_and_logged_witness :
  let run := generateVirtualTryOnImage Sample.env Sample.unreachable
               Sample.person Sample.shirt tt in
  ErrorObject failedMessage
  = ErrorObject
      "Failed to generate image. The model may be unavailable or the request was invalid." /\
  exists cause,
    events run
    = [NewGoogleGenAI {| apiKey := Some "secret" |};
       GenerateContent {| apiKey := Some "secret" |} (requestFor Sample.person Sample.shirt);
       GeminiService.ConsoleError "Error calling Gemini API:" cause] /\
    (forall err, Sample.unreachable {| apiKey := Some "secret" |}
                   (requestFor Sample.person Sample.shirt) = Throw err -> cause = err).
Proof.
  apply (failures_are_generic_and_logged Sample.env Sample.person Sample.shirt
           Sample.unreachable (ErrorObject failedMessage)); reflexivity.
Defined.

Lemma later_candidates_are_ignored_witness :
  let imageless := {| content := Some {| parts := Some [Sample.textOnly] |} |} in
  let withImage := {| content := Some {| parts := Some [Sample.png] |} |} in
  generateVirtualTryOnImage Sample.env
    (fun _ _ => Return {| candidates := Some [imageless; withImage] |})
    Sample.person Sample.shirt tt
  = generateVirtualTryOnImage Sample.env
      (fun _ _ => Return {| candidates := Some [imageless] |})
      Sample.person Sample.shirt tt.
Proof.
  intros imageless withImage.
  apply (later_candidates_are_ignored Sample.env Sample.person Sample.shirt
           (fun _ _ => Return {| candidates := Some [imageless; withImage] |})
           (fun _ _ => Return {| candidates := Some [imageless] |})
           imageless [withImage]); reflexivity.
Defined.

Lemma response_without_parts_fails_witness :
  generateVirtualTryOnImage Sample.env
    (fun _ _ => Return {| candidates := Some [] |}) Sample.person Sample.shirt tt
  = mkRes (Throw (ErrorObject failedMessage)) tt
      [NewGoogleGenAI {| apiKey := Some "secret" |};
       GenerateContent {| apiKey := Some "secret" |} (requestFor Sample.person Sample.shirt);
       GeminiService.ConsoleError "Error calling Gemini API:" (ErrorObject noImageMessage)].
Proof.
  apply (response_without_parts_fails Sample.env Sample.person Sample.shirt
           (fun _ _ => Return {| candidates := Some [] |})
           {| candidates := Some [] |});
    [reflexivity | reflexivity | left; reflexivity].
Defined.

Lemma untyped_inline_part_aborts_the_scan_witness :
  generateVirtualTryOnImage Sample.env
    (Sample.answering [Sample.textOnly; untyped; Sample.png])
    Sample.person Sample.shirt tt
  = mkRes (Throw (ErrorObject failedMessage)) tt
      [NewGoogleGenAI {| apiKey := Some "secret" |};
       GenerateContent {| apiKey := Some "secret" |} (requestFor Sample.person Sample.shirt);
       GeminiService.ConsoleError "Error calling Gemini API:" (readOfUndefined "startsWith")].
Proof.
  apply (untyped_inline_part_aborts_the_scan Sample.env Sample.person Sample.shirt
           (Sample.answering [Sample.textOnly; untyped; Sample.png])
           (respondsWith [Sample.textOnly; untyped; Sample.png])
           [Sample.textOnly] [Sample.png] untyped
           {| data := Some "AAAA"; GenAI.mimeType := None |}); try reflexivity.
  apply Forall_cons; [left; reflexivity | apply Forall_nil].
Defined.

Lemma returned_payload_is_the_first_image_part_witness :
  truthy (API_KEY Sample.env) = true /\
  exists response pre part post blob,
    Sample.answering [Sample.textOnly; Sample.jpeg] {| apiKey := Some "secret" |}
      (requestFor Sample.person Sample.shirt) = Return response /\
    firstParts response = Some (pre ++ part :: post) /\
    Forall NotImagePart pre /\
    ImagePart part blob /\
    Some "Zm9v" = data blob.
Proof.
  apply (returned_payload_is_the_first_image_part Sample.env Sample.person Sample.shirt
           (Sample.answering [Sample.textOnly; Sample.jpeg]) (Some "Zm9v")).
  reflexivity.
Defined.

Lemma successful_upload_fills_the_slot_and_keeps_the_error_witness :
  let r := handleFileChange encoder (Some shirtFile) clothing failedBefore in
  slot clothing (final r)
    = Some {| file := shirtFile; base64 := "c2hpcnQ="; mimeType := "image/png" |} /\
  slot person (final r) = Some Sample.personUpload /\
  generatedImage (final r) = None /\
  isLoading (final r) = false /\
  error (final r) = Some "An error occurred: boom. Please try again.".
Proof.
  apply (successful_upload_fills_the_slot_and_keeps_the_error
           encoder shirtFile Sample.shirt clothing failedBefore).
  reflexivity.
Defined.

Lemma nullish_throw_escapes_the_catch_block_witness :
  let client := fun _ _ : ImageData => @throw GeminiService.Event unit JsStr Nullish in
  let r := handleTryOn client succeededBefore in
  (exists e, outcome r = Throw e) /\
  events r
  = [SetIsLoading true; SetError None; SetGeneratedImage None;
     Generate Sample.person Sample.shirt; SetIsLoading false] /\
  error (final r) = None /\
  generatedImage (final r) = None /\
  isLoading (final r) = false.
Proof.
  intro client.
  apply (nullish_throw_escapes_the_catch_block client succeededBefore
           Sample.personUpload Sample.shirtUpload); reflexivity.
Defined.

Lemma reupload_supersedes_the_previous_one_witness :
  final (handleFileChange encoder (Some shirtFile) person
           (final (handleFileChange encoder (Some personFile) person initialState)))
  = final (handleFileChange encoder (Some shirtFile) person initialState).
Proof.
  apply (reupload_supersedes_the_previous_one encoder
           (Some personFile) shirtFile Sample.shirt person initialState).
  - reflexivity.
  - intros f0 err Hf0. injection Hf0 as <-. discriminate.
Defined.

Lemma attempt_depends_only_on_the_uploads_witness :
  handleTryOn (Sample.resolving "Zm9v") failedBefore
  = handleTryOn (Sample.resolving "Zm9v") succeededBefore.
Proof.
  apply (attempt_depends_only_on_the_uploads (Sample.resolving "Zm9v")
           failedBefore succeededBefore Sample.personUpload Sample.shirtUpload);
    reflexivity.
Defined.

Lemma enabled_button_starts_an_attempt_witness :
  (exists p c rest,
     personImage Sample.ready = Some p /\ clothingImage Sample.ready = Some c /\
     events (handleTryOn (Sample.failing "boom") Sample.ready)
     = [SetIsLoading true; SetError None; SetGeneratedImage None;
        Generate (asImageData p) (asImageData c)] ++ rest) /\
  error (final (handleTryOn (Sample.failing "boom") Sample.ready))
    <> Some "Please upload both images before trying on.".
Proof.
  apply (enabled_button_starts_an_attempt (Sample.failing "boom") Sample.ready).
  reflexivity.
Defined.

Lemma view_while_generating_witness :
  (exists rest,
     events (handleTryOn (Sample.resolving "Zm9v") succeededBefore)
     = entry Sample.personUpload Sample.shirtUpload ++ rest) /\
  View.render (replay (entry Sample.personUpload Sample.shirtUpload) succeededBefore)
  = {| View.buttonDisabled := true;
       View.buttonLabel := "Generating...";
       View.errorText := None;
       View.overlay := true;
       View.placeholder := false;
       View.resultSrc := None;
       View.downloadButton := false |}.
Proof.
  apply (view_while_generating (Sample.resolving "Zm9v") succeededBefore
           Sample.personUpload Sample.shirtUpload); reflexivity.
Defined.

Lemma button_is_enabled_again_after_an_attempt_witness :
  let client := fun _ _ : ImageData => @throw GeminiService.Event unit JsStr Nullish in
  View.isButtonDisabled (final (handleTryOn client Sample.ready)) = false /\
  View.overlay (View.render (final (handleTryOn client Sample.ready))) = false.
Proof.
  intro client.
  apply (button_is_enabled_again_after_an_attempt client Sample.ready).
  exists Sample.personUpload, Sample.shirtUpload. split; reflexivity.
Defined.

Lemma view_after_success_witness :
  View.render (final (handleTryOn (Sample.resolving "Zm9v") failedBefore))
  = {| View.buttonDisabled := false;
       View.buttonLabel := "Try It On";
       View.errorText := None;
       View.overlay := false;
       View.placeholder := false;
       View.resultSrc := Some "data:image/png;base64,Zm9v";
       View.downloadButton := true |}.
Proof.
  apply (view_after_success (Sample.resolving "Zm9v") failedBefore
           Sample.personUpload Sample.shirtUpload "Zm9v"); reflexivity.
Defined.

Lemma view_after_failure_witness :
  View.render (final (handleTryOn (Sample.failing "quota exceeded") succeededBefore))
  = {| View.buttonDisabled := false;
       View.buttonLabel := "Try It On";
       View.errorText := Some "An error occurred: quota exceeded. Please try again.";
       View.overlay := false;
       View.placeholder := true;
       View.resultSrc := None;
       View.downloadButton := false |}.
Proof.
  apply (view_after_failure (Sample.failing "quota exceeded") succeededBefore
           Sample.personUpload Sample.shirtUpload "quota exceeded"); reflexivity.
Defined.

Lemma download_after_success_witness :
  let shown := final (handleTryOn (Sample.resolving "Zm9v") Sample.ready) in
  let link := {| Download.href := "data:image/png;base64,Zm9v";
                 Download.download := "clothy-try-on.png" |} in
  Download.handleDownload shown
  = mkRes (Return tt) shown
      [Download.CreateElement "a"; Download.AppendChild link;
       Download.Click link; Download.RemoveChild link].
Proof.
  apply (download_after_success (Sample.resolving "Zm9v") Sample.ready
           Sample.personUpload Sample.shirtUpload "Zm9v"); reflexivity.
Defined.

Lemma nothing_to_download_after_failure_witness :
  let shown := final (handleTryOn (Sample.failing "boom") succeededBefore) in
  Download.handleDownload shown = mkRes (Return tt) shown [].
Proof.
  apply (nothing_to_download_after_failure (Sample.failing "boom") succeededBefore
           Sample.personUpload Sample.shirtUpload (ErrorObject "boom")); reflexivity.
Defined.

Lemma cancelled_selection_clears_box_and_slot_witness :
  let box := {| UploadBox.preview := Some "blob:person.jpg";
                UploadBox.fileName := "person.jpg" |} in
  let r := UploadBox.boxFor objectURL encoder person (Some []) (box, Sample.ready) in
  fst (final r) = {| UploadBox.preview := None; UploadBox.fileName := "" |} /\
  snd (final r) = apply (slotEvent person None) Sample.ready /\
  slot person (snd (final r)) = None /\
  View.isButtonDisabled (snd (final r)) = true.
Proof.
  intro box.
  apply (cancelled_selection_clears_box_and_slot objectURL encoder (Some []) person
           box Sample.ready).
  right. reflexivity.
Defined.

Lemma failed_encoding_leaves_preview_and_slot_apart_witness :
  let broken := {| name := "broken.png" |} in
  let box := {| UploadBox.preview := Some "blob:person.jpg";
                UploadBox.fileName := "person.jpg" |} in
  let r := UploadBox.boxFor objectURL encoder person (Some [broken]) (box, Sample.ready) in
  outcome r = Return tt /\
  UploadBox.preview (fst (final r)) = Some "blob:broken.png" /\
  UploadBox.fileName (fst (final r)) = "broken.png" /\
  slot person (snd (final r)) = Some Sample.personUpload /\
  error (snd (final r)) = Some "Failed to process file. Please try another image.".
Proof.
  intros broken box.
  apply (failed_encoding_leaves_preview_and_slot_apart objectURL encoder
           broken [] (ErrorObject "read failed") person box Sample.ready).
  reflexivity.
Defined.

Lemma attempt_with_real_client_ends_succeeded_or_failed_witness :
  let r := handleTryOn (generateVirtualTryOnImage Sample.noKey Sample.unreachable)
             Sample.ready in
  outcome r = Return tt /\
  ((exists v, Succeeded (final r) ("data:image/png;base64," ++ template v)%string) \/
   Failed (final r)
     "An error occurred: API_KEY environment variable not set.. Please try again." \/
   Failed (final r)
     "An error occurred: Failed to generate image. The model may be unavailable or the request was invalid.. Please try again.").
Proof.
  apply (attempt_with_real_client_ends_succeeded_or_failed
           Sample.noKey Sample.unreachable Sample.ready
           Sample.personUpload Sample.shirtUpload); reflexivity.
Defined.

Lemma uploads_reach_the_service_unchanged_witness :
  let client := generateVirtualTryOnImage Sample.env (Sample.answering [Sample.png]) in
  let s1 := final (handleFileChange encoder (Some personFile) person initialState) in
  let s2 := final (handleFileChange encoder (Some shirtFile) clothing s1) in
  In (Service
        (GenerateContent {| apiKey := Some "secret" |}
           (requestFor Sample.person Sample.shirt)))
     (events (handleTryOn client s2)).
Proof.
  apply (uploads_reach_the_service_unchanged Sample.env (Sample.answering [Sample.png])
           encoder initialState personFile shirtFile Sample.person Sample.shirt);
    reflexivity.
Defined.

End MoreExamples.
